(** * A weather worker: edge handler, single-key cache and upstream fetcher

    Shallow embedding of [src/src/worker.ts] and of the older variant of the
    same file kept as [src/unnamed/part_000], which differs in the way
    [fetchWeatherData] selects the hourly index.

    The embedding follows the code line by line.  Values are JavaScript
    values as [JSON.parse] builds them (plus [undefined]); exceptions are
    explicit; the three platform services the worker calls (the global
    [fetch], the KV namespace and [Date]) are fields of records that the
    functions receive, and each call of the first two is recorded in a trace.
    Console output is not modelled. *)

From Stdlib Require Import ZArith List String Ascii Bool Lia PrimFloat DecimalString.
Import ListNotations.
Set Warnings "-register-all,-inexact-float".

Local Open Scope string_scope.
Local Open Scope Z_scope.

(** ** JavaScript values *)

Module JS.

(** Numbers are IEEE doubles, as in the language.  An object is the list of
    its own properties in insertion order; a property read takes the first
    entry with the key. *)
Inductive jsval : Type :=
| JUndef
| JNull
| JBool (b : bool)
| JNum (x : float)
| JStr (s : string)
| JArr (elems : list jsval)
| JObj (props : list (string * jsval)).

(** A thrown value, reduced to the text that
    [err instanceof Error ? err.message : String(err)] yields. *)
Inductive exn : Type := Exn (message : string).

Inductive result (A : Type) : Type :=
| Ok (a : A)
| Throw (e : exn).
Arguments Ok {A} a.
Arguments Throw {A} e.

Definition rbind {A B} (r : result A) (k : A -> result B) : result B :=
  match r with
  | Ok a => k a
  | Throw e => Throw e
  end.

(** [!v] is [negb (truthy v)]. *)
Definition truthy (v : jsval) : bool :=
  match v with
  | JUndef | JNull => false
  | JBool b => b
  | JNum x => negb (PrimFloat.eqb x 0%float || PrimFloat.is_nan x)
  | JStr s => negb (String.eqb s "")
  | JArr _ | JObj _ => true
  end.

(** [a === b].  Two arrays or objects taken from one parsed tree are never
    the same reference. *)
Definition strict_eq (a b : jsval) : bool :=
  match a, b with
  | JUndef, JUndef => true
  | JNull, JNull => true
  | JBool x, JBool y => Bool.eqb x y
  | JNum x, JNum y => PrimFloat.eqb x y
  | JStr x, JStr y => String.eqb x y
  | _, _ => false
  end.

Definition is_undefined (v : jsval) : bool :=
  match v with
  | JUndef => true
  | _ => false
  end.

Fixpoint lookup (k : string) (props : list (string * jsval)) : jsval :=
  match props with
  | [] => JUndef
  | (k', v) :: rest => if String.eqb k k' then v else lookup k rest
  end.

(** [v.k], for the property names the worker reads ([current_weather],
    [hourly], [time], [precipitation], [cloudcover], [temperature]): no
    prototype defines them, so only an object's own property can answer. *)
Definition get_prop (v : jsval) (k : string) : result jsval :=
  match v with
  | JUndef => Throw (Exn ("Cannot read properties of undefined (reading '" ++ k ++ "')"))
  | JNull => Throw (Exn ("Cannot read properties of null (reading '" ++ k ++ "')"))
  | JObj props => Ok (lookup k props)
  | _ => Ok JUndef
  end.

(** [v?.k] *)
Definition opt_prop (v : jsval) (k : string) : result jsval :=
  match v with
  | JUndef | JNull => Ok JUndef
  | _ => get_prop v k
  end.

Definition decimal (n : Z) : string :=
  NilZero.string_of_uint (N.to_uint (Z.to_N n)).

(** [v[i]] for an integer [i >= 0]: an array element, a character of a
    string (a code unit; strings are taken as sequences of 8-bit units),
    the property whose key is the decimal numeral of [i]. *)
Definition get_index (v : jsval) (i : Z) : result jsval :=
  match v with
  | JUndef => Throw (Exn ("Cannot read properties of undefined (reading '" ++ decimal i ++ "')"))
  | JNull => Throw (Exn ("Cannot read properties of null (reading '" ++ decimal i ++ "')"))
  | JArr elems =>
      Ok (if i <? 0 then JUndef else nth (Z.to_nat i) elems JUndef)
  | JStr s =>
      Ok (if i <? 0 then JUndef else
            match String.get (Z.to_nat i) s with
            | Some c => JStr (String c "")
            | None => JUndef
            end)
  | JObj props => Ok (lookup (decimal i) props)
  | _ => Ok JUndef
  end.

(** [Array.prototype.findIndex]: the first index whose element satisfies
    the predicate, [-1] when there is none. *)
Fixpoint find_from (p : jsval -> bool) (elems : list jsval) (i : Z) : Z :=
  match elems with
  | [] => -1
  | x :: rest => if p x then i else find_from p rest (i + 1)
  end.

(** [v.findIndex(p)]: only an array has the method; on any other value
    parsed from JSON the call throws (reading it throws on [undefined] and
    [null], calling what is read throws on the rest). *)
Definition findIndex (v : jsval) (p : jsval -> bool) : result Z :=
  match v with
  | JArr elems => Ok (find_from p elems 0)
  | JUndef => Throw (Exn "Cannot read properties of undefined (reading 'findIndex')")
  | JNull => Throw (Exn "Cannot read properties of null (reading 'findIndex')")
  | _ => Throw (Exn "hourlyTimes.findIndex is not a function")
  end.

Definition has_key (k : string) (props : list (string * jsval)) : bool :=
  existsb (fun kv => String.eqb k (fst kv)) props.

(** Converting [v] to a primitive throws a TypeError.  For a value parsed
    from JSON this is the case of an object with an own property
    [toString] (it hides the inherited method and cannot be called, while
    [valueOf] returns the object itself), and of an array with such an
    element, [Array.prototype.toString] joining the conversions of the
    elements. *)
Fixpoint no_primitive (v : jsval) : bool :=
  match v with
  | JArr elems => existsb no_primitive elems
  | JObj props => has_key "toString" props
  | _ => false
  end.

(** Evaluation of a template literal with the substitutions [vs], each
    converted to a string; only whether it completes is kept. *)
Definition interpolate (vs : list jsval) : result unit :=
  if existsb no_primitive vs
  then Throw (Exn "Cannot convert object to primitive value")
  else Ok tt.

(** [v.slice(0, 3)] *)
Definition slice_0_3 (v : jsval) : result jsval :=
  match v with
  | JArr elems => Ok (JArr (firstn 3 elems))
  | JStr s => Ok (JStr (substring 0 3 s))
  | JUndef => Throw (Exn "Cannot read properties of undefined (reading 'slice')")
  | JNull => Throw (Exn "Cannot read properties of null (reading 'slice')")
  | _ => Throw (Exn "hourlyTimes.slice is not a function")
  end.

End JS.
Export JS.

(** ** Dates *)

Module JSDate.

Definition msPerDay : Z := 86400000.
Definition msPerHour : Z := 3600000.
Definition msPerMinute : Z := 60000.
Definition msPerSecond : Z := 1000.

(** A Date object holds a time value: milliseconds since the epoch, or NaN
    ([None]).  Time values beyond 8.64e15 in magnitude are NaN. *)
Definition TimeClip (t : option Z) : option Z :=
  match t with
  | Some ms => if Z.abs ms <=? 8640000000000000 then Some ms else None
  | None => None
  end.

Definition Day (t : Z) : Z := t / msPerDay.
Definition HourFromTime (t : Z) : Z := (t / msPerHour) mod 24.
Definition MinFromTime (t : Z) : Z := (t / msPerMinute) mod 60.
Definition SecFromTime (t : Z) : Z := (t / msPerSecond) mod 60.
Definition msFromTime (t : Z) : Z := t mod msPerSecond.

(** Year, month (1-12) and day of the month of a day number, in the
    proleptic Gregorian calendar, counted in 400-year eras that start on
    1 March. *)
Definition civil (day : Z) : Z * Z * Z :=
  let z := day + 719468 in
  let era := z / 146097 in
  let doe := z - era * 146097 in
  let yoe := (doe - doe / 1460 + doe / 36524 - doe / 146096) / 365 in
  let doy := doe - (365 * yoe + yoe / 4 - yoe / 100) in
  let mp := (5 * doy + 2) / 153 in
  let d := doy - (153 * mp + 2) / 5 + 1 in
  let m := if mp <? 10 then mp + 3 else mp - 9 in
  let y := yoe + era * 400 + (if m <=? 2 then 1 else 0) in
  (y, m, d).

Definition digit (d : Z) : ascii := ascii_of_N (48 + Z.to_N d).

(** The [n] low decimal digits of [x], most significant first. *)
Fixpoint digits (n : nat) (x : Z) : string :=
  match n with
  | O => ""
  | S k => digits k (x / 10) ++ String (digit (x mod 10)) ""
  end.

Definition year_string (y : Z) : string :=
  if (0 <=? y) && (y <=? 9999) then digits 4 y
  else (if y <? 0 then "-" else "+") ++ digits 6 (Z.abs y).

(** [d.getUTCHours()]: NaN for the invalid date. *)
Definition getUTCHours (d : option Z) : option Z :=
  option_map HourFromTime d.

(** [d.toISOString()]: throws a RangeError for the invalid date. *)
Definition toISOString (d : option Z) : result string :=
  match d with
  | None => Throw (Exn "Invalid time value")
  | Some t =>
      let '(y, m, dd) := civil (Day t) in
      Ok (year_string y ++ "-" ++ digits 2 m ++ "-" ++ digits 2 dd ++ "T"
          ++ digits 2 (HourFromTime t) ++ ":" ++ digits 2 (MinFromTime t) ++ ":"
          ++ digits 2 (SecFromTime t) ++ "." ++ digits 3 (msFromTime t) ++ "Z")
  end.

(** [s.split('T')[0]]: what precedes the first [T]. *)
Fixpoint split_T_0 (s : string) : string :=
  match s with
  | EmptyString => ""
  | String c rest => if Ascii.eqb c "T" then "" else String c (split_T_0 rest)
  end.

(** [n.toString()] for an integer or NaN. *)
Definition number_toString (n : option Z) : string :=
  match n with
  | None => "NaN"
  | Some z => if z <? 0 then "-" ++ decimal (- z) else decimal z
  end.

(** [s.padStart(n, '0')] *)
Definition padStart0 (n : nat) (s : string) : string :=
  String.concat "" (repeat "0" (n - String.length s)) ++ s.

End JSDate.
Export JSDate.

(** ** Effects: a trace of platform calls, and exceptions *)

(** A string the worker produces: a literal, or [JSON.stringify(v)], which
    is kept as the value it serialises. *)
Inductive text : Type :=
| Literal (s : string)
| Stringified (v : jsval).

Definition JSON_stringify (v : jsval) : text := Stringified v.

Inductive event : Type :=
| EvFetch (url : string)
| EvKvGet (key : string)
| EvKvPut (key : string) (value : text) (expirationTtl : Z).

(** A computation: the platform calls it made, in order, and how it ended. *)
Definition M (A : Type) : Type := (list event * result A)%type.

Definition ret {A} (a : A) : M A := ([], Ok a).

Definition bind {A B} (m : M A) (k : A -> M B) : M B :=
  match m with
  | (t, Ok a) => let (t', r) := k a in ((t ++ t')%list, r)
  | (t, Throw e) => (t, Throw e)
  end.

(** A step that calls no platform service. *)
Definition lift {A} (r : result A) : M A := ([], r).

(** [try { m } catch (err) { h err }] *)
Definition try_catch {A} (m : M A) (h : exn -> M A) : M A :=
  match m with
  | (t, Throw e) => let (t', r) := h e in ((t ++ t')%list, r)
  | (t, Ok a) => (t, Ok a)
  end.

Declare Scope js_scope.
Delimit Scope js_scope with js.
Notation "x <- m ;; k" := (bind m (fun x => k))
  (at level 61, m at next level, right associativity) : js_scope.
Notation "m ;;; k" := (bind m (fun _ => k))
  (at level 61, right associativity) : js_scope.
Notation "'let?' x := r 'in' k" := (rbind r (fun x => k))
  (at level 61, r at next level, right associativity) : js_scope.
Local Open Scope js_scope.

(** ** The platform *)

(** The [Response] the global [fetch] resolves to: [ok], [statusText] and
    what [response.json()] settles to. *)
Record FetchResponse : Type := {
  ok : bool;
  statusText : string;
  json : result jsval
}.

Inductive fetch_reply : Type :=
| FetchRejects (e : exn)
| FetchResolves (r : FetchResponse).

(** Ambient services of one invocation. *)
Record Runtime : Type := {
  (** the outcome of the global [fetch(url)] *)
  net : string -> fetch_reply;
  (** the time value [new Date(v)] gets for a defined [v] (for a string,
      [Date.parse]; in the runtime's time zone when the string has none) *)
  Date_value : jsval -> option Z;
  (** [new Date().toISOString()] *)
  now : string
}.

(** What [KVNamespace.get] resolves to, [null] or a string; a string is
    given by what [JSON.parse] does with it. *)
Inductive cached : Type :=
| CachedNull
| CachedEmpty
| CachedUnparsable (e : exn)
| CachedJson (v : jsval).

Inductive get_reply : Type :=
| GetRejects (e : exn)
| GetResolves (c : cached).

Record KVNamespace : Type := {
  kv_get : string -> get_reply;
  (** [None]: the write resolves; [Some e]: it rejects with [e] *)
  kv_put : string -> text -> Z -> option exn
}.

Record Env : Type := {
  API_URL : string;
  WEATHER_CACHE : KVNamespace
}.

Definition global_fetch (rt : Runtime) (url : string) : M FetchResponse :=
  ([EvFetch url],
   match net rt url with
   | FetchRejects e => Throw e
   | FetchResolves r => Ok r
   end).

Definition KV_get (ns : KVNamespace) (key : string) : M cached :=
  ([EvKvGet key],
   match kv_get ns key with
   | GetRejects e => Throw e
   | GetResolves c => Ok c
   end).

Definition KV_put (ns : KVNamespace) (key : string) (value : text) (ttl : Z) : M unit :=
  ([EvKvPut key value ttl],
   match kv_put ns key value ttl with
   | Some e => Throw e
   | None => Ok tt
   end).

(** [!cached] holds for [null] and for the empty string. *)
Definition cached_truthy (c : cached) : bool :=
  match c with
  | CachedNull | CachedEmpty => false
  | CachedUnparsable _ | CachedJson _ => true
  end.

Definition JSON_parse (c : cached) : result jsval :=
  match c with
  | CachedJson v => Ok v
  | CachedUnparsable e => Throw e
  | CachedEmpty => Throw (Exn "Unexpected end of JSON input")
  | CachedNull => Ok JNull
  end.

(** [new Date(v)]: [v] is first converted to a primitive; [undefined]
    gives the invalid date. *)
Definition new_Date (rt : Runtime) (v : jsval) : result (option Z) :=
  if no_primitive v then Throw (Exn "Cannot convert object to primitive value")
  else Ok (match v with
           | JUndef => None
           | _ => TimeClip (Date_value rt v)
           end).

(** ** HTTP messages *)

Record Request : Type := {
  method : string;
  (** [request.headers.get(name)] *)
  headers_get : string -> option string
}.

Record Response : Type := {
  status : Z;
  body : option text;
  (** the headers given to [new Response]; the content type that the
      constructor derives from a string body when it is given none is not
      part of them *)
  headers : list (string * string)
}.

(** [headers.get(name) || ""] *)
Definition or_empty (h : option string) : string :=
  match h with
  | Some s => s
  | None => ""
  end.

Fixpoint header (name : string) (hs : list (string * string)) : option string :=
  match hs with
  | [] => None
  | (n, v) :: rest => if String.eqb name n then Some v else header name rest
  end.

(** ** The worker, [src/src/worker.ts] *)

(** An object of the interface [CachedWeatherData], as the object literal
    of [fetchWeatherData] builds it. *)
Definition CachedWeatherData
    (temperature precipitation cloudcover timestamp : jsval) (lastUpdated : string) : jsval :=
  JObj [("temperature", temperature);
        ("precipitation", precipitation);
        ("cloudcover", cloudcover);
        ("timestamp", timestamp);
        ("lastUpdated", JStr lastUpdated)].

Definition corsHeaders : list (string * string) :=
  [("Access-Control-Allow-Origin", "*");
   ("Access-Control-Allow-Methods", "GET,HEAD,POST,OPTIONS");
   ("Access-Control-Max-Age", "86400")].

Definition CACHE_KEY : string := "weather_fukuoka".
Definition CACHE_TTL : Z := 4 * 60 * 60.

(** [!e] *)
Definition js_not (e : result jsval) : result bool :=
  let? v := e in Ok (negb (truthy v)).

(** [a || b] on conditions: [b] is evaluated only when [a] is false. *)
Definition js_or (a b : result bool) : result bool :=
  let? x := a in if x then Ok true else b.

(** [data.hourly?.k] *)
Definition hourly_opt (data : jsval) (k : string) : result jsval :=
  let? h := get_prop data "hourly" in opt_prop h k.

(** [data.hourly.k] *)
Definition hourly_prop (data : jsval) (k : string) : result jsval :=
  let? h := get_prop data "hourly" in get_prop h k.

Definition apiUrl (env : Env) : string :=
  API_URL env ++ "?"
  ++ "latitude=33.5902&longitude=130.4017&current_weather=true"
  ++ "&hourly=precipitation,cloudcover".

(** Lines 87-101 of [fetchWeatherData], which are lines 66-80 of the
    variant: read the two hourly values at [index]; return [null] when one
    is [undefined], the record otherwise. *)
Definition record_at (rt : Runtime) (data currentTime : jsval) (index : Z) : result jsval :=
  let? hp := hourly_prop data "precipitation" in
  let? precipitation := get_index hp index in
  let? hc := hourly_prop data "cloudcover" in
  let? cloudcover := get_index hc index in
  if is_undefined precipitation || is_undefined cloudcover then Ok JNull else
  let? current_weather := get_prop data "current_weather" in
  let? temperature := get_prop current_weather "temperature" in
  Ok (CachedWeatherData temperature precipitation cloudcover currentTime (now rt)).

(** Lines 52-101 of [fetchWeatherData]: from the parsed body [data] to the
    value returned, inside the [try] block.  Of the [console] calls only
    the one of line 82 is kept, for its template literal, whose evaluation
    converts values of the body to strings. *)
Definition fetchWeatherData_parsed (rt : Runtime) (data : jsval) : result jsval :=
  let? incomplete :=
    js_or (js_not (get_prop data "current_weather"))
   (js_or (js_not (hourly_opt data "precipitation"))
   (js_or (js_not (hourly_opt data "cloudcover"))
          (js_not (hourly_opt data "time")))) in
  if incomplete then Ok JNull else
  let? current_weather := get_prop data "current_weather" in
  let? currentTime := get_prop current_weather "time" in
  let? hourlyTimes := hourly_prop data "time" in
  let? index := findIndex hourlyTimes (fun t => strict_eq t currentTime) in
  let? index :=
    if index =? -1 then
      let? currentDate := new_Date rt currentTime in
      let currentHour := getUTCHours currentDate in
      let? iso := toISOString currentDate in
      let currentDateStr := split_T_0 iso in
      let targetTime :=
        currentDateStr ++ "T" ++ padStart0 2 (number_toString currentHour) ++ ":00" in
      let? index := findIndex hourlyTimes (fun t => strict_eq t (JStr targetTime)) in
      if index =? -1 then
        let? first3 := slice_0_3 hourlyTimes in
        let? _ := interpolate [currentTime; first3] in
        Ok 0
      else Ok index
    else Ok index in
  record_at rt data currentTime index.

Definition fetchWeatherData (rt : Runtime) (env : Env) : M jsval :=
  try_catch
    (response <- global_fetch rt (apiUrl env) ;;
     if negb (ok response) then ret JNull else
     data <- lift (json response) ;;
     lift (fetchWeatherData_parsed rt data))
    (fun _ => ret JNull).

Definition getCachedWeatherData (env : Env) : M jsval :=
  try_catch
    (cached <- KV_get (WEATHER_CACHE env) CACHE_KEY ;;
     if negb (cached_truthy cached) then ret JNull else
     lift (JSON_parse cached))
    (fun _ => ret JNull).

Definition setCachedWeatherData (env : Env) (data : jsval) : M unit :=
  try_catch
    (KV_put (WEATHER_CACHE env) CACHE_KEY (JSON_stringify data) CACHE_TTL)
    (fun _ => ret tt).

Definition preflight_response (request : Request) : Response :=
  {| status := 200;
     body := None;
     headers :=
       corsHeaders ++
       [("Access-Control-Allow-Headers",
         or_empty (headers_get request "Access-Control-Request-Headers"))] |}.

Definition unavailable_response : Response :=
  {| status := 503;
     body := Some (Literal "Unable to fetch weather data");
     headers := corsHeaders |}.

Definition json_response (weatherData : jsval) : Response :=
  {| status := 200;
     body := Some (JSON_stringify weatherData);
     headers := ("Content-Type", "application/json") :: corsHeaders |}.

Definition error_response (e : exn) : Response :=
  let 'Exn errorMessage := e in
  {| status := 500;
     body := Some (Literal ("Unexpected error: " ++ errorMessage));
     headers := corsHeaders |}.

(** The [fetch] entry point.  The early [return] of the 503 response and
    the common [return] after the [if] are written as the two arms they
    amount to. *)
Definition fetch (rt : Runtime) (request : Request) (env : Env) : M Response :=
  if String.eqb (method request) "OPTIONS" then ret (preflight_response request)
  else
    try_catch
      (weatherData <- getCachedWeatherData env ;;
       if negb (truthy weatherData) then
         weatherData <- fetchWeatherData rt env ;;
         if negb (truthy weatherData) then ret unavailable_response
         else
           setCachedWeatherData env weatherData ;;;
           ret (json_response weatherData)
       else ret (json_response weatherData))
      (fun e => ret (error_response e)).

(** The [scheduled] entry point. *)
Definition scheduled (rt : Runtime) (env : Env) : M unit :=
  try_catch
    (weatherData <- fetchWeatherData rt env ;;
     if truthy weatherData then setCachedWeatherData env weatherData
     else ret tt)
    (fun _ => ret tt).

(** ** The older variant, [src/unnamed/part_000]

    Its declarations, cache accessors and entry points repeat those of
    [worker.ts]; [fetchWeatherData] differs. *)

Module Part000.

(** Lines 52-80 of the variant's [fetchWeatherData]: from the parsed body
    to the value returned. *)
Definition fetchWeatherData_parsed (rt : Runtime) (data : jsval) : result jsval :=
  let? current_weather := get_prop data "current_weather" in
  let? currentTime := opt_prop current_weather "time" in
  let? ht := hourly_opt data "time" in
  let hourlyTimes := if truthy ht then ht else JArr [] in
  let? index := findIndex hourlyTimes (fun t => strict_eq t currentTime) in
  let? incomplete :=
    js_or (Ok (index =? -1))
   (js_or (js_not (get_prop data "current_weather"))
   (js_or (js_not (hourly_opt data "precipitation"))
          (js_not (hourly_opt data "cloudcover")))) in
  if incomplete then Ok JNull else
  record_at rt data currentTime index.

Definition fetchWeatherData (rt : Runtime) (env : Env) : M jsval :=
  try_catch
    (response <- global_fetch rt (apiUrl env) ;;
     if negb (ok response) then ret JNull else
     data <- lift (json response) ;;
     lift (fetchWeatherData_parsed rt data))
    (fun _ => ret JNull).

Definition fetch (rt : Runtime) (request : Request) (env : Env) : M Response :=
  if String.eqb (method request) "OPTIONS" then ret (preflight_response request)
  else
    try_catch
      (weatherData <- getCachedWeatherData env ;;
       if negb (truthy weatherData) then
         weatherData <- fetchWeatherData rt env ;;
         if negb (truthy weatherData) then ret unavailable_response
         else
           setCachedWeatherData env weatherData ;;;
           ret (json_response weatherData)
       else ret (json_response weatherData))
      (fun e => ret (error_response e)).

Definition scheduled (rt : Runtime) (env : Env) : M unit :=
  try_catch
    (weatherData <- fetchWeatherData rt env ;;
     if truthy weatherData then setCachedWeatherData env weatherData
     else ret tt)
    (fun _ => ret tt).

End Part000.

(** ** Inputs used in examples *)

(** [Date.parse] of a runtime in UTC on the form [YYYY-MM-DDTHH:mm] (the
    form of the upstream's time labels); any other string is not a date
    here. *)
Definition digit_value (c : ascii) : option Z :=
  let n := Z.of_N (N_of_ascii c) - 48 in
  if (0 <=? n) && (n <=? 9) then Some n else None.

Fixpoint number_of (s : string) (acc : Z) : option Z :=
  match s with
  | EmptyString => Some acc
  | String c rest =>
      match digit_value c with
      | Some d => number_of rest (10 * acc + d)
      | None => None
      end
  end.

Definition days_from_civil (y m d : Z) : Z :=
  let y' := if m <=? 2 then y - 1 else y in
  let era := y' / 400 in
  let yoe := y' - era * 400 in
  let mp := if m <=? 2 then m + 9 else m - 3 in
  let doy := (153 * mp + 2) / 5 + d - 1 in
  let doe := yoe * 365 + yoe / 4 - yoe / 100 + doy in
  era * 146097 + doe - 719468.

Definition utc_parse (s : string) : option Z :=
  if negb (Nat.eqb (String.length s) 16) then None
  else if negb (String.eqb (substring 4 1 s) "-" && String.eqb (substring 7 1 s) "-"
                && String.eqb (substring 10 1 s) "T" && String.eqb (substring 13 1 s) ":")
  then None
  else
    match number_of (substring 0 4 s) 0, number_of (substring 5 2 s) 0,
          number_of (substring 8 2 s) 0, number_of (substring 11 2 s) 0,
          number_of (substring 14 2 s) 0 with
    | Some y, Some m, Some d, Some hh, Some mm =>
        if (1 <=? m) && (m <=? 12) && (1 <=? d) && (d <=? 31) && (hh <=? 23) && (mm <=? 59)
        then Some (days_from_civil y m d * msPerDay + hh * msPerHour + mm * msPerMinute)
        else None
    | _, _, _, _, _ => None
    end.

Definition utc_Date_value (v : jsval) : option Z :=
  match v with
  | JStr s => utc_parse s
  | _ => None
  end.

(** A response of the upstream with status 200 and the JSON body [data]. *)
Definition response_200 (data : jsval) : FetchResponse :=
  {| ok := true; statusText := "OK"; json := Ok data |}.

Definition response_503 : FetchResponse :=
  {| ok := false;
     statusText := "Service Unavailable";
     json := Throw (Exn "Unexpected end of JSON input") |}.

(** A runtime in UTC that gets [reply] from the upstream, at a fixed instant. *)
Definition runtime_with (reply : fetch_reply) : Runtime :=
  {| net := fun _ => reply;
     Date_value := utc_Date_value;
     now := "2025-06-26T12:00:05.000Z" |}.

(** A KV namespace whose key holds [c] and whose writes resolve. *)
Definition kv_holding (c : cached) : KVNamespace :=
  {| kv_get := fun _ => GetResolves c;
     kv_put := fun _ _ _ => None |}.

Definition env_holding (c : cached) : Env :=
  {| API_URL := "https://api.open-meteo.com/v1/forecast";
     WEATHER_CACHE := kv_holding c |}.

Definition GET : Request :=
  {| method := "GET"; headers_get := fun _ => None |}.

Definition weather_body (temperature : float) (time : string)
    (times : list string) (precipitation cloudcover : list float) : jsval :=
  JObj [("latitude", JNum 33.6%float);
        ("current_weather", JObj [("temperature", JNum temperature); ("time", JStr time)]);
        ("hourly", JObj [("time", JArr (map JStr times));
                         ("precipitation", JArr (map JNum precipitation));
                         ("cloudcover", JArr (map JNum cloudcover))])].

(** The body of the spec's example and of the second test of
    [worker.test.ts]. *)
Definition example_body : jsval :=
  weather_body 23.1%float "2025-06-26T12:00"
    ["2025-06-26T12:00"; "2025-06-26T13:00"] [0.1; 0.2]%float [25; 35]%float.


(** The cached record of the first test of [worker.test.ts]. *)
Definition test_cached_record : jsval :=
  CachedWeatherData (JNum 25.5%float) (JNum 0.2%float) (JNum 30%float)
                    (JStr "2025-06-26T12:00") "2025-06-26T12:00:00.000Z".

(** A pre-flight request that asks for one header. *)
Definition OPTIONS : Request :=
  {| method := "OPTIONS";
     headers_get := fun name =>
       if String.eqb name "Access-Control-Request-Headers" then Some "Content-Type"
       else None |}.

(** A store whose writes reject. *)
Definition failing_put : string -> text -> Z -> option exn :=
  fun _ _ _ => Some (Exn "KV PUT failed: 500 Internal Server Error").

(** A body whose reading carries no temperature. *)
Definition body_without_temperature : jsval :=
  JObj [("current_weather", JObj [("time", JStr "2025-06-26T12:00")]);
        ("hourly", JObj [("time", JArr [JStr "2025-06-26T12:00"; JStr "2025-06-26T13:00"]);
                         ("precipitation", JArr [JNum 0.1%float; JNum 0.2%float]);
                         ("cloudcover", JArr [JNum 25%float; JNum 35%float])])].

(** What [JSON.parse] reads from [{"precipitation":0.1,"cloudcover":25,
    "timestamp":"2025-06-26T12:00","lastUpdated":"2025-06-26T12:00:05.000Z"}]. *)
Definition cached_without_temperature : jsval :=
  JObj [("precipitation", JNum 0.1%float);
        ("cloudcover", JNum 25%float);
        ("timestamp", JStr "2025-06-26T12:00");
        ("lastUpdated", JStr "2025-06-26T12:00:05.000Z")].

(** Bodies whose reading is timed between two hourly labels, and on a day
    the hourly labels do not cover. *)
Definition body_half_past : jsval :=
  weather_body 23.1%float "2025-06-26T13:30"
    ["2025-06-26T12:00"; "2025-06-26T13:00"] [0.1; 0.2]%float [25; 35]%float.

Definition body_next_day : jsval :=
  weather_body 23.1%float "2025-06-27T09:30"
    ["2025-06-26T12:00"; "2025-06-26T13:00"] [0.1; 0.2]%float [25; 35]%float.

(** ** Notions used in the statements *)

(** The own property [k] of [v], [undefined] when [v] is not an object or
    has none: what [v.k] and [v?.k] evaluate to whenever they do not throw. *)
Definition field (v : jsval) (k : string) : jsval :=
  match v with
  | JObj props => lookup k props
  | _ => JUndef
  end.

Definition nullish (v : jsval) : bool :=
  match v with
  | JUndef | JNull => true
  | _ => false
  end.

(** The value of a [try] block whose [catch] returns [null]. *)
Definition or_null (r : result jsval) : jsval :=
  match r with
  | Ok v => v
  | Throw _ => JNull
  end.

(** All five fields of a record are present and defined. *)
Definition complete_record (v : jsval) : bool :=
  negb (is_undefined (field v "temperature"))
  && negb (is_undefined (field v "precipitation"))
  && negb (is_undefined (field v "cloudcover"))
  && negb (is_undefined (field v "timestamp"))
  && negb (is_undefined (field v "lastUpdated")).

(** The body [data] is a response of the upstream schema
    ([WeatherAPIResponse] with both members): a reading with a numeric
    temperature and a time label, and three hourly series, one entry per
    time label. *)
Definition well_formed (data : jsval) (temperature : float) (time : string)
    (times : list string) (precipitation cloudcover : list float) : Prop :=
  field (field data "current_weather") "temperature" = JNum temperature /\
  field (field data "current_weather") "time" = JStr time /\
  field (field data "hourly") "time" = JArr (map JStr times) /\
  field (field data "hourly") "precipitation" = JArr (map JNum precipitation) /\
  field (field data "hourly") "cloudcover" = JArr (map JNum cloudcover) /\
  List.length precipitation = List.length times /\
  List.length cloudcover = List.length times.

(** [i] is the first position of [times] that holds [time]. *)
Definition first_match (time : string) (times : list string) (i : nat) : Prop :=
  nth_error times i = Some time /\
  forall j, (j < i)%nat -> nth_error times j <> Some time.

(** The exact-match search of both fetchers on the body [data]:
    [hourlyTimes.findIndex((t) => t === currentTime)]. *)
Definition exact_index (data : jsval) : result Z :=
  findIndex (field (field data "hourly") "time")
            (fun t => strict_eq t (field (field data "current_weather") "time")).

(** The completeness test of lines 52-57 of [worker.ts]. *)
Definition incomplete (data : jsval) : bool :=
  negb (truthy (field data "current_weather"))
  || negb (truthy (field (field data "hourly") "precipitation"))
  || negb (truthy (field (field data "hourly") "cloudcover"))
  || negb (truthy (field (field data "hourly") "time")).

(** A record built from the body [data]: temperature and timestamp are
    what the reading carries, precipitation and cloudcover are defined. *)
Definition record_of (rt : Runtime) (data v : jsval) : Prop :=
  exists p c,
    v = CachedWeatherData (field (field data "current_weather") "temperature") p c
                          (field (field data "current_weather") "time") (now rt)
    /\ is_undefined p = false /\ is_undefined c = false.

Definition with_kv_get (env : Env) (g : string -> get_reply) : Env :=
  {| API_URL := API_URL env;
     WEATHER_CACHE := {| kv_get := g; kv_put := kv_put (WEATHER_CACHE env) |} |}.

Definition with_kv_put (env : Env) (p : string -> text -> Z -> option exn) : Env :=
  {| API_URL := API_URL env;
     WEATHER_CACHE := {| kv_get := kv_get (WEATHER_CACHE env); kv_put := p |} |}.

(** What a fetcher returns for a reply of the upstream, [parsed] being its
    part that works on the parsed body. *)
Definition response_value (parsed : jsval -> result jsval) (reply : fetch_reply) : jsval :=
  match reply with
  | FetchRejects _ => JNull
  | FetchResolves r =>
      if negb (ok r) then JNull else or_null (let? data := json r in parsed data)
  end.

(** What the cache read returns for a reply of the store. *)
Definition cache_value (reply : get_reply) : jsval :=
  match reply with
  | GetRejects _ => JNull
  | GetResolves c => if negb (cached_truthy c) then JNull else or_null (JSON_parse c)
  end.

(** The label the fallback of [worker.ts] looks for (lines 72-77): the UTC
    date of the reading's time, [T], its UTC hour on two digits, [:00].
    Building it throws when the reading's time is not a valid date. *)
Definition targetTime (rt : Runtime) (currentTime : jsval) : result string :=
  let? currentDate := new_Date rt currentTime in
  let? iso := toISOString currentDate in
  Ok (split_T_0 iso ++ "T" ++ padStart0 2 (number_toString (getUTCHours currentDate)) ++ ":00").

(** Line 82: the message of the last fallback is built from the reading's
    time and the first three hourly labels. *)
Definition log_first_available (currentTime hourlyTimes : jsval) : result unit :=
  let? first3 := slice_0_3 hourlyTimes in
  interpolate [currentTime; first3].

(** The index the fallback of [worker.ts] settles on (lines 78-84): that of
    the label above, [0] when no hourly label equals it. *)
Definition fallback_index (rt : Runtime) (data : jsval) : result Z :=
  let currentTime := field (field data "current_weather") "time" in
  let hourlyTimes := field (field data "hourly") "time" in
  let? target := targetTime rt currentTime in
  let? index := findIndex hourlyTimes (fun t => strict_eq t (JStr target)) in
  if index =? -1 then
    let? _ := log_first_available currentTime hourlyTimes in Ok 0
  else Ok index.

(** [v] holds no [undefined], at any depth: the case of every value that
    [JSON.parse] or [response.json()] builds. *)
Fixpoint has_no_undefined (v : jsval) : bool :=
  match v with
  | JUndef => false
  | JArr elems => forallb has_no_undefined elems
  | JObj props =>
      forallb (fun kv : string * jsval => let (_, x) := kv in has_no_undefined x) props
  | _ => true
  end.

(** [v] is a record that a fetcher made from the body of a successful
    response of the upstream: precipitation and cloudcover are defined,
    temperature and timestamp are the reading's; the body being a parsed
    one, the timestamp is defined too, and the record has its five fields
    defined exactly when the reading carries a temperature. *)
Definition fetched_from_upstream (rt : Runtime) (env : Env) (v : jsval) : Prop :=
  exists r data,
    net rt (apiUrl env) = FetchResolves r /\ ok r = true /\ json r = Ok data
    /\ record_of rt data v
    /\ (has_no_undefined data = true ->
        is_undefined (field v "timestamp") = false
        /\ complete_record v
           = negb (is_undefined (field (field data "current_weather") "temperature"))).

(** ** Further inputs and notions *)

(** A request with another method and headers of its own. *)
Definition POST : Request :=
  {| method := "POST";
     headers_get := fun name =>
       if String.eqb name "Content-Type" then Some "text/plain" else None |}.

(** The runtime [rt] with another [Date]. *)
Definition with_Date_value (rt : Runtime) (dv : jsval -> option Z) : Runtime :=
  {| net := net rt; Date_value := dv; now := now rt |}.

(** A body whose reading's time is no date and equals no hourly label. *)
Definition body_undated : jsval :=
  weather_body 23.1%float "soon"
    ["2025-06-26T12:00"; "2025-06-26T13:00"] [0.1; 0.2]%float [25; 35]%float.

(** A body whose precipitation series stops before the matching index. *)
Definition body_short_series : jsval :=
  weather_body 23.1%float "2025-06-26T13:00"
    ["2025-06-26T12:00"; "2025-06-26T13:00"] [0.1]%float [25; 35]%float.


(** A body whose hourly time is a single label instead of an array. *)
Definition body_time_not_array : jsval :=
  JObj [("current_weather",
         JObj [("temperature", JNum 23.1%float); ("time", JStr "2025-06-26T12:00")]);
        ("hourly",
         JObj [("time", JStr "2025-06-26T12:00");
               ("precipitation", JArr [JNum 0.1%float]);
               ("cloudcover", JArr [JNum 25%float])])].

(** The arguments a platform call of the worker may have: the upstream URL
    built from the configured base, the one cache key, and for a write a
    serialised value with the expiration of four hours. *)
Definition fixed_call (env : Env) (e : event) : Prop :=
  match e with
  | EvFetch url =>
      url = API_URL env
            ++ "?latitude=33.5902&longitude=130.4017&current_weather=true&hourly=precipitation,cloudcover"
  | EvKvGet key => key = "weather_fukuoka"
  | EvKvPut key (Stringified _) ttl => key = "weather_fukuoka" /\ ttl = 14400
  | EvKvPut _ (Literal _) _ => False
  end.

(** * Properties *)

(** ** Checks on concrete inputs *)

Example iso_epoch : toISOString (Some 0) = Ok "1970-01-01T00:00:00.000Z".
Proof. reflexivity. Qed.

Example iso_2025 : toISOString (Some 1750941000123) = Ok "2025-06-26T12:30:00.123Z".
Proof. reflexivity. Qed.

Example iso_leap : toISOString (Some 1709251199000) = Ok "2024-02-29T23:59:59.000Z".
Proof. reflexivity. Qed.

Example iso_before_epoch : toISOString (Some (-1)) = Ok "1969-12-31T23:59:59.999Z".
Proof. reflexivity. Qed.

Example iso_year_zero_minus : toISOString (Some (-62198755200000)) = Ok "-000001-01-01T00:00:00.000Z".
Proof. reflexivity. Qed.

Example iso_max : toISOString (Some 8640000000000000) = Ok "+275760-09-13T00:00:00.000Z".
Proof. reflexivity. Qed.

Example pad_hour : padStart0 2 (number_toString (Some 7)) = "07"
                   /\ padStart0 2 (number_toString (Some 12)) = "12".
Proof. split; reflexivity. Qed.

Example utc_parse_half_past : utc_parse "2025-06-26T12:30" = Some 1750941000000.
Proof. reflexivity. Qed.

Example utc_parse_inverse :
  option_map (fun t => toISOString (Some t)) (utc_parse "2024-02-29T23:59")
  = Some (Ok "2024-02-29T23:59:00.000Z").
Proof. reflexivity. Qed.

Example utc_parse_not_a_date : utc_parse "soon" = None.
Proof. reflexivity. Qed.

Example target_of_half_past :
  targetTime (runtime_with (FetchRejects (Exn "fetch failed"))) (JStr "2025-06-26T13:30")
  = Ok "2025-06-26T13:00".
Proof. reflexivity. Qed.

Example index_reads :
  get_index (JArr [JNum 0.1; JNum 0.2]) 1 = Ok (JNum 0.2)
  /\ get_index (JArr [JNum 0.1; JNum 0.2]) 2 = Ok JUndef
  /\ get_index (JStr "ab") 1 = Ok (JStr "b")
  /\ get_index (JObj [("1", JNull)]) 1 = Ok JNull
  /\ get_index (JNum 5) 0 = Ok JUndef.
Proof. repeat split. Qed.

(** The spec's example, which is the second test of [worker.test.ts]: a
    miss, then the record of index 0, returned and written once. *)
Example test_fetch_fresh :
  fetch (runtime_with (FetchResolves (response_200 example_body))) GET (env_holding CachedNull)
  = ([EvKvGet "weather_fukuoka";
      EvFetch ("https://api.open-meteo.com/v1/forecast?latitude=33.5902&longitude=130.4017"
               ++ "&current_weather=true&hourly=precipitation,cloudcover");
      EvKvPut "weather_fukuoka"
        (Stringified (CachedWeatherData (JNum 23.1) (JNum 0.1) (JNum 25)
                        (JStr "2025-06-26T12:00") "2025-06-26T12:00:05.000Z"))
        14400],
     Ok {| status := 200;
           body := Some (Stringified (CachedWeatherData (JNum 23.1) (JNum 0.1) (JNum 25)
                                        (JStr "2025-06-26T12:00") "2025-06-26T12:00:05.000Z"));
           headers := [("Content-Type", "application/json");
                       ("Access-Control-Allow-Origin", "*");
                       ("Access-Control-Allow-Methods", "GET,HEAD,POST,OPTIONS");
                       ("Access-Control-Max-Age", "86400")] |}).
Proof. reflexivity. Qed.

(** The first test: a cached record is returned and the upstream is not called. *)
Example test_cached :
  fetch (runtime_with (FetchResolves (response_200 example_body))) GET
        (env_holding (CachedJson test_cached_record))
  = ([EvKvGet "weather_fukuoka"], Ok (json_response test_cached_record)).
Proof. reflexivity. Qed.

(** The third test: pre-flight. *)
Example test_preflight :
  fetch (runtime_with (FetchRejects (Exn "fetch failed"))) OPTIONS (env_holding CachedNull)
  = ([], Ok {| status := 200;
               body := None;
               headers := [("Access-Control-Allow-Origin", "*");
                           ("Access-Control-Allow-Methods", "GET,HEAD,POST,OPTIONS");
                           ("Access-Control-Max-Age", "86400");
                           ("Access-Control-Allow-Headers", "Content-Type")] |}).
Proof. reflexivity. Qed.

(** The fourth test: the upstream answers 503. *)
Example test_api_error :
  fetch (runtime_with (FetchResolves response_503)) GET (env_holding CachedNull)
  = ([EvKvGet "weather_fukuoka"; EvFetch (apiUrl (env_holding CachedNull))],
     Ok unavailable_response).
Proof. reflexivity. Qed.

(** The fifth test: a scheduled run fetches and writes. *)
Example test_scheduled :
  scheduled (runtime_with (FetchResolves (response_200 example_body)))
            (env_holding (CachedJson test_cached_record))
  = ([EvFetch (apiUrl (env_holding CachedNull));
      EvKvPut "weather_fukuoka"
        (Stringified (CachedWeatherData (JNum 23.1) (JNum 0.1) (JNum 25)
                        (JStr "2025-06-26T12:00") "2025-06-26T12:00:05.000Z"))
        14400],
     Ok tt).
Proof. reflexivity. Qed.

(** A write that rejects leaves the response as it is. *)
Example failing_write :
  snd (fetch (runtime_with (FetchResolves (response_200 example_body))) GET
             (with_kv_put (env_holding CachedNull) failing_put))
  = Ok (json_response (CachedWeatherData (JNum 23.1) (JNum 0.1) (JNum 25)
                         (JStr "2025-06-26T12:00") "2025-06-26T12:00:05.000Z")).
Proof. reflexivity. Qed.

(** A series shorter than the matching index: no record. *)
Example short_series :
  snd (fetchWeatherData
         (runtime_with (FetchResolves (response_200
            (weather_body 23.1 "2025-06-26T13:00" ["2025-06-26T12:00"; "2025-06-26T13:00"]
                          [0.1]%float [25; 35]%float))))
         (env_holding CachedNull))
  = Ok JNull.
Proof. reflexivity. Qed.

(** Cached strings that are empty, not JSON, or the JSON of a falsy value
    count as a miss; so does a read that rejects. *)
Example cache_misses :
  map cache_value
      [GetRejects (Exn "KV GET failed"); GetResolves CachedNull; GetResolves CachedEmpty;
       GetResolves (CachedUnparsable (Exn "Unexpected token"));
       GetResolves (CachedJson JNull)]
  = [JNull; JNull; JNull; JNull; JNull].
Proof. reflexivity. Qed.

(** ** Values *)

Lemma opt_prop_field v k : opt_prop v k = Ok (field v k).
Proof. destruct v; reflexivity. Qed.

Lemma get_prop_field v k : nullish v = false -> get_prop v k = Ok (field v k).
Proof. destruct v; simpl; intros H; try discriminate; reflexivity. Qed.

Lemma get_prop_nullish v k : nullish v = true -> exists e, get_prop v k = Throw e.
Proof. destruct v; simpl; intros H; try discriminate; eexists; reflexivity. Qed.

Lemma get_prop_ok v k x : get_prop v k = Ok x -> x = field v k /\ nullish v = false.
Proof. destruct v; simpl; intros H; inversion H; auto. Qed.

Lemma truthy_not_nullish v : truthy v = true -> nullish v = false.
Proof. destruct v; simpl; intros H; try discriminate; reflexivity. Qed.

Lemma field_defined_object v k : truthy (field v k) = true -> nullish v = false.
Proof. destruct v; simpl; intros H; try discriminate; reflexivity. Qed.

Lemma findIndex_ok v p i : findIndex v p = Ok i -> exists elems, v = JArr elems /\ i = find_from p elems 0.
Proof. destruct v; simpl; intros H; inversion H; eauto. Qed.

Lemma find_from_shift p elems i : find_from p elems i = -1 \/ i <= find_from p elems i.
Proof.
  revert i; induction elems as [|x rest IH]; intros i; simpl.
  - left; reflexivity.
  - destruct (p x).
    + right; lia.
    + destruct (IH (i + 1)) as [H|H]; [left; exact H | right; lia].
Qed.

(** The search finds the first position that holds the label. *)
Lemma find_from_first time times : forall i k,
  first_match time times i ->
  find_from (fun t => strict_eq t (JStr time)) (map JStr times) k = k + Z.of_nat i.
Proof.
  induction times as [|s rest IH]; intros i k [Hn Hfirst].
  - destruct i; discriminate.
  - simpl. destruct i as [|i].
    + simpl in Hn. inversion Hn; subst. rewrite String.eqb_refl. lia.
    + destruct (String.eqb s time) eqn:E.
      * apply String.eqb_eq in E. subst s.
        exfalso. apply (Hfirst 0%nat); [lia | reflexivity].
      * rewrite (IH i (k + 1)); [lia|].
        split; [exact Hn|].
        intros j Hj. apply (Hfirst (S j)). lia.
Qed.

Lemma first_match_exists time times : In time times -> exists i, first_match time times i.
Proof.
  induction times as [|s rest IH]; intros Hin; [destruct Hin|].
  destruct (String.eqb s time) eqn:E.
  - apply String.eqb_eq in E. subst s. exists 0%nat. split; [reflexivity|]. intros j Hj; lia.
  - destruct Hin as [Heq|Hin]; [subst s; rewrite String.eqb_refl in E; discriminate|].
    destruct (IH Hin) as [i [Hn Hfirst]]. exists (S i). split; [exact Hn|].
    intros [|j] Hj; simpl.
    + intros H; inversion H; subst. rewrite String.eqb_refl in E. discriminate.
    + apply Hfirst. lia.
Qed.


(** ** Runs of the helpers *)

Lemma try_catch_null (m : M jsval) :
  try_catch m (fun _ => ret JNull) = (fst m, Ok (or_null (snd m))).
Proof.
  destruct m as [t [v|e]]; simpl; [reflexivity|].
  rewrite app_nil_r. reflexivity.
Qed.

Lemma fetchWeatherData_run rt env :
  fetchWeatherData rt env
  = ([EvFetch (apiUrl env)],
     Ok (response_value (fetchWeatherData_parsed rt) (net rt (apiUrl env)))).
Proof.
  unfold fetchWeatherData. rewrite try_catch_null.
  unfold global_fetch, response_value, bind, lift, ret.
  destruct (net rt (apiUrl env)) as [e|r]; simpl; [reflexivity|].
  destruct (ok r); simpl; [|reflexivity].
  destruct (json r) as [data|e]; simpl; reflexivity.
Qed.

Lemma Part000_fetchWeatherData_run rt env :
  Part000.fetchWeatherData rt env
  = ([EvFetch (apiUrl env)],
     Ok (response_value (Part000.fetchWeatherData_parsed rt) (net rt (apiUrl env)))).
Proof.
  unfold Part000.fetchWeatherData. rewrite try_catch_null.
  unfold global_fetch, response_value, bind, lift, ret.
  destruct (net rt (apiUrl env)) as [e|r]; simpl; [reflexivity|].
  destruct (ok r); simpl; [|reflexivity].
  destruct (json r) as [data|e]; simpl; reflexivity.
Qed.

Lemma getCachedWeatherData_run env :
  getCachedWeatherData env
  = ([EvKvGet CACHE_KEY], Ok (cache_value (kv_get (WEATHER_CACHE env) CACHE_KEY))).
Proof.
  unfold getCachedWeatherData. rewrite try_catch_null.
  unfold KV_get, cache_value, bind, lift, ret.
  destruct (kv_get (WEATHER_CACHE env) CACHE_KEY) as [e|c]; simpl; [reflexivity|].
  destruct (cached_truthy c); simpl; reflexivity.
Qed.

Lemma setCachedWeatherData_run env data :
  setCachedWeatherData env data
  = ([EvKvPut CACHE_KEY (JSON_stringify data) CACHE_TTL], Ok tt).
Proof.
  unfold setCachedWeatherData, KV_put, try_catch, ret.
  destruct (kv_put (WEATHER_CACHE env) CACHE_KEY (JSON_stringify data) CACHE_TTL);
    reflexivity.
Qed.

(** The request handler, by cases on the cached value and on the fetched one. *)
Lemma fetch_run rt request env :
  String.eqb (method request) "OPTIONS" = false ->
  forall cachedData fetched,
  getCachedWeatherData env = ([EvKvGet CACHE_KEY], Ok cachedData) ->
  fetchWeatherData rt env = ([EvFetch (apiUrl env)], Ok fetched) ->
  fetch rt request env =
    if truthy cachedData then ([EvKvGet CACHE_KEY], Ok (json_response cachedData))
    else if truthy fetched then
      ([EvKvGet CACHE_KEY; EvFetch (apiUrl env);
        EvKvPut CACHE_KEY (JSON_stringify fetched) CACHE_TTL],
       Ok (json_response fetched))
    else ([EvKvGet CACHE_KEY; EvFetch (apiUrl env)], Ok unavailable_response).
Proof.
  intros Hm cachedData fetched Hc Hf.
  unfold fetch. rewrite Hm, Hc. unfold bind at 1.
  destruct (truthy cachedData); simpl; [reflexivity|].
  rewrite Hf. unfold bind at 1.
  destruct (truthy fetched); simpl; [|reflexivity].
  rewrite setCachedWeatherData_run. reflexivity.
Qed.

Lemma scheduled_run rt env fetched :
  fetchWeatherData rt env = ([EvFetch (apiUrl env)], Ok fetched) ->
  scheduled rt env =
    if truthy fetched then
      ([EvFetch (apiUrl env); EvKvPut CACHE_KEY (JSON_stringify fetched) CACHE_TTL], Ok tt)
    else ([EvFetch (apiUrl env)], Ok tt).
Proof.
  intros Hf. unfold scheduled. rewrite Hf. unfold bind.
  destruct (truthy fetched); simpl; [|reflexivity].
  rewrite setCachedWeatherData_run. reflexivity.
Qed.

Lemma Part000_scheduled_run rt env fetched :
  Part000.fetchWeatherData rt env = ([EvFetch (apiUrl env)], Ok fetched) ->
  Part000.scheduled rt env =
    if truthy fetched then
      ([EvFetch (apiUrl env); EvKvPut CACHE_KEY (JSON_stringify fetched) CACHE_TTL], Ok tt)
    else ([EvFetch (apiUrl env)], Ok tt).
Proof.
  intros Hf. unfold Part000.scheduled. rewrite Hf. unfold bind.
  destruct (truthy fetched); simpl; [|reflexivity].
  rewrite setCachedWeatherData_run. reflexivity.
Qed.

(** ** The part of the fetchers that works on the parsed body *)

Lemma hourly_opt_field data k :
  nullish data = false -> hourly_opt data k = Ok (field (field data "hourly") k).
Proof.
  intros H. unfold hourly_opt. rewrite (get_prop_field _ _ H). simpl.
  apply opt_prop_field.
Qed.

Lemma hourly_prop_field data k :
  nullish data = false -> nullish (field data "hourly") = false ->
  hourly_prop data k = Ok (field (field data "hourly") k).
Proof.
  intros H Hh. unfold hourly_prop. rewrite (get_prop_field _ _ H). simpl.
  apply get_prop_field; exact Hh.
Qed.

Lemma record_at_cases rt data currentTime index v :
  record_at rt data currentTime index = Ok v ->
  v = JNull \/
  exists p c,
    v = CachedWeatherData (field (field data "current_weather") "temperature") p c
                          currentTime (now rt)
    /\ is_undefined p = false /\ is_undefined c = false.
Proof.
  unfold record_at. intros H.
  destruct (hourly_prop data "precipitation") as [hp|e]; [simpl in H|discriminate].
  destruct (get_index hp index) as [p|e]; [simpl in H|discriminate].
  destruct (hourly_prop data "cloudcover") as [hc|e]; [simpl in H|discriminate].
  destruct (get_index hc index) as [c|e]; [simpl in H|discriminate].
  destruct (is_undefined p) eqn:Hp; simpl in H; [inversion H; left; reflexivity|].
  destruct (is_undefined c) eqn:Hc; simpl in H; [inversion H; left; reflexivity|].
  destruct (get_prop data "current_weather") as [cw|e] eqn:Hcw; [simpl in H|discriminate].
  destruct (get_prop cw "temperature") as [t|e] eqn:Ht; [simpl in H|discriminate].
  apply get_prop_ok in Hcw. destruct Hcw as [-> _].
  apply get_prop_ok in Ht. destruct Ht as [-> _].
  inversion H. right. exists p, c. auto.
Qed.

Lemma parsed_nullish rt data :
  nullish data = true -> exists e, fetchWeatherData_parsed rt data = Throw e.
Proof.
  intros H. unfold fetchWeatherData_parsed, js_or, js_not.
  destruct (get_prop_nullish data "current_weather" H) as [e ->]. simpl. eauto.
Qed.

Lemma Part000_parsed_nullish rt data :
  nullish data = true -> exists e, Part000.fetchWeatherData_parsed rt data = Throw e.
Proof.
  intros H. unfold Part000.fetchWeatherData_parsed.
  destruct (get_prop_nullish data "current_weather" H) as [e ->]. simpl. eauto.
Qed.

(** [worker.ts]: completeness test, exact search, fallback, then the read. *)
Lemma parsed_normal rt data :
  nullish data = false ->
  fetchWeatherData_parsed rt data =
    if incomplete data then Ok JNull
    else
      let? index := exact_index data in
      let? index := (if index =? -1 then fallback_index rt data else Ok index) in
      record_at rt data (field (field data "current_weather") "time") index.
Proof.
  intros H. unfold fetchWeatherData_parsed, incomplete, js_or, js_not.
  rewrite !(hourly_opt_field _ _ H), (get_prop_field _ _ H). simpl.
  destruct (truthy (field data "current_weather")) eqn:Hcw; simpl; [|reflexivity].
  destruct (truthy (field (field data "hourly") "precipitation")) eqn:Hp; simpl; [|reflexivity].
  destruct (truthy (field (field data "hourly") "cloudcover")) eqn:Hc; simpl; [|reflexivity].
  destruct (truthy (field (field data "hourly") "time")) eqn:Ht; simpl; [|reflexivity].
  rewrite (get_prop_field _ _ (truthy_not_nullish _ Hcw)). simpl.
  rewrite (hourly_prop_field _ _ H (field_defined_object _ _ Hp)). simpl.
  unfold exact_index.
  destruct (findIndex (field (field data "hourly") "time")
              (fun t => strict_eq t (field (field data "current_weather") "time")))
    as [index|e]; simpl; [|reflexivity].
  destruct (index =? -1); [|reflexivity].
  unfold fallback_index, targetTime, log_first_available. cbv zeta.
  destruct (new_Date rt (field (field data "current_weather") "time"))
    as [currentDate|e]; simpl; [|reflexivity].
  destruct (toISOString currentDate) as [iso|e]; simpl; [|reflexivity].
  destruct (findIndex _ _) as [j|e]; simpl; [|reflexivity].
  destruct (j =? -1); [|reflexivity].
  destruct (slice_0_3 _) as [first3|e]; reflexivity.
Qed.

(** The variant: exact search, then the test that fails on [-1], then the read. *)
Lemma Part000_parsed_normal rt data :
  nullish data = false ->
  Part000.fetchWeatherData_parsed rt data =
    let ht := field (field data "hourly") "time" in
    let? index := findIndex (if truthy ht then ht else JArr [])
                    (fun t => strict_eq t (field (field data "current_weather") "time")) in
    if (index =? -1)
       || negb (truthy (field data "current_weather"))
       || negb (truthy (field (field data "hourly") "precipitation"))
       || negb (truthy (field (field data "hourly") "cloudcover"))
    then Ok JNull
    else record_at rt data (field (field data "current_weather") "time") index.
Proof.
  intros H. unfold Part000.fetchWeatherData_parsed, js_or, js_not.
  rewrite !(hourly_opt_field _ _ H), (get_prop_field _ _ H). simpl.
  rewrite opt_prop_field. simpl.
  destruct (findIndex _ _) as [index|e]; simpl; [|reflexivity].
  destruct (index =? -1); simpl; [reflexivity|].
  destruct (truthy (field data "current_weather")); simpl; [|reflexivity].
  destruct (truthy (field (field data "hourly") "precipitation")); simpl; [|reflexivity].
  destruct (truthy (field (field data "hourly") "cloudcover")); simpl; reflexivity.
Qed.

Lemma parsed_result rt data v :
  fetchWeatherData_parsed rt data = Ok v -> v = JNull \/ record_of rt data v.
Proof.
  intros H. destruct (nullish data) eqn:Hn.
  - destruct (parsed_nullish rt data Hn) as [e He]. congruence.
  - rewrite (parsed_normal rt data Hn) in H.
    destruct (incomplete data); [inversion H; auto|].
    destruct (exact_index data) as [i|e]; [simpl in H|discriminate].
    destruct (if i =? -1 then fallback_index rt data else Ok i) as [j|e];
      [simpl in H|discriminate].
    exact (record_at_cases _ _ _ _ _ H).
Qed.

Lemma Part000_parsed_result rt data v :
  Part000.fetchWeatherData_parsed rt data = Ok v -> v = JNull \/ record_of rt data v.
Proof.
  intros H. destruct (nullish data) eqn:Hn.
  - destruct (Part000_parsed_nullish rt data Hn) as [e He]. congruence.
  - rewrite (Part000_parsed_normal rt data Hn) in H. cbv zeta in H.
    destruct (findIndex _ _) as [i|e]; [simpl in H|discriminate].
    destruct (_ || _); [inversion H; auto|].
    exact (record_at_cases _ _ _ _ _ H).
Qed.

(** A fetcher returns [null], or what its second part made of the body of
    a successful response. *)
Lemma response_value_cases parsed reply :
  response_value parsed reply = JNull \/
  exists r data,
    reply = FetchResolves r /\ ok r = true /\ json r = Ok data
    /\ parsed data = Ok (response_value parsed reply).
Proof.
  unfold response_value. destruct reply as [e|r]; [left; reflexivity|].
  destruct (ok r) eqn:Hok; simpl; [|left; reflexivity].
  destruct (json r) as [data|e] eqn:Hj; simpl; [|left; reflexivity].
  destruct (parsed data) as [v|e] eqn:Hp; simpl; [|left; reflexivity].
  right. exists r, data. auto.
Qed.

Lemma record_of_truthy rt data v : record_of rt data v -> truthy v = true.
Proof. intros [p [c [-> _]]]. reflexivity. Qed.

Lemma fetched_null_or_truthy rt env :
  let v := response_value (fetchWeatherData_parsed rt) (net rt (apiUrl env)) in
  v = JNull \/ truthy v = true.
Proof.
  intros v. destruct (response_value_cases (fetchWeatherData_parsed rt) (net rt (apiUrl env)))
    as [H|[r [data [_ [_ [_ H]]]]]]; [left; exact H|].
  destruct (parsed_result _ _ _ H) as [H0|H0]; [left; exact H0|].
  right. exact (record_of_truthy _ _ _ H0).
Qed.

Lemma Part000_fetched_null_or_truthy rt env :
  let v := response_value (Part000.fetchWeatherData_parsed rt) (net rt (apiUrl env)) in
  v = JNull \/ truthy v = true.
Proof.
  intros v.
  destruct (response_value_cases (Part000.fetchWeatherData_parsed rt) (net rt (apiUrl env)))
    as [H|[r [data [_ [_ [_ H]]]]]]; [left; exact H|].
  destruct (Part000_parsed_result _ _ _ H) as [H0|H0]; [left; exact H0|].
  right. exact (record_of_truthy _ _ _ H0).
Qed.

Lemma not_OPTIONS request :
  method request <> "OPTIONS" -> String.eqb (method request) "OPTIONS" = false.
Proof. intros H. apply String.eqb_neq. exact H. Qed.

Lemma cached_value_of env v :
  snd (getCachedWeatherData env) = Ok v ->
  getCachedWeatherData env = ([EvKvGet CACHE_KEY], Ok v).
Proof. rewrite getCachedWeatherData_run. simpl. intros H. rewrite H. reflexivity. Qed.

Lemma fetched_value_of rt env v :
  snd (fetchWeatherData rt env) = Ok v ->
  fetchWeatherData rt env = ([EvFetch (apiUrl env)], Ok v).
Proof. rewrite fetchWeatherData_run. simpl. intros H. rewrite H. reflexivity. Qed.

(** ** The request handler *)

(** C3.  On a request whose method is not OPTIONS, when the cache read
    returns a stored record (any value that is not falsy; an object never
    is), the handler answers 200 with that value, unchanged, as the JSON
    body; the only platform call of the invocation is the cache read: no
    call of the upstream, no cache write. *)
Theorem cache_hit_returned_unchanged rt request env v :
  method request <> "OPTIONS" ->
  snd (getCachedWeatherData env) = Ok v ->
  truthy v = true ->
  fetch rt request env =
    ([EvKvGet CACHE_KEY],
     Ok {| status := 200;
           body := Some (JSON_stringify v);
           headers := ("Content-Type", "application/json") :: corsHeaders |}).
Proof.
  intros Hm Hc Hv.
  rewrite (fetch_run rt request env (not_OPTIONS _ Hm) v _
             (cached_value_of _ _ Hc) (fetchWeatherData_run rt env)).
  rewrite Hv. reflexivity.
Qed.

Lemma cache_hit_returned_unchanged_witness :
  method GET <> "OPTIONS"
  /\ snd (getCachedWeatherData (env_holding (CachedJson test_cached_record)))
     = Ok test_cached_record
  /\ truthy test_cached_record = true
  /\ fetch (runtime_with (FetchRejects (Exn "fetch failed"))) GET
           (env_holding (CachedJson test_cached_record))
     = ([EvKvGet CACHE_KEY],
        Ok {| status := 200;
              body := Some (JSON_stringify test_cached_record);
              headers := ("Content-Type", "application/json") :: corsHeaders |}).
Proof.
  assert (Hm : method GET <> "OPTIONS") by (simpl; discriminate).
  assert (Hc : snd (getCachedWeatherData (env_holding (CachedJson test_cached_record)))
               = Ok test_cached_record) by reflexivity.
  assert (Hv : truthy test_cached_record = true) by reflexivity.
  split; [exact Hm|]. split; [exact Hc|]. split; [exact Hv|].
  exact (cache_hit_returned_unchanged _ GET _ _ Hm Hc Hv).
Defined.

(** C4.  On a request whose method is not OPTIONS, when the cache read
    returns absent and the upstream answers with a non-success status, or
    the fetcher returns no record for any other reason, the handler answers
    503 with the plain-text body "Unable to fetch weather data"; the
    platform calls of the invocation are the cache read and the upstream
    call: there is no cache write. *)
Theorem miss_and_unavailable_gives_503 rt request env :
  method request <> "OPTIONS" ->
  snd (getCachedWeatherData env) = Ok JNull ->
  (exists r, net rt (apiUrl env) = FetchResolves r /\ ok r = false)
  \/ snd (fetchWeatherData rt env) = Ok JNull ->
  fetch rt request env =
    ([EvKvGet CACHE_KEY; EvFetch (apiUrl env)],
     Ok {| status := 503;
           body := Some (Literal "Unable to fetch weather data");
           headers := corsHeaders |}).
Proof.
  intros Hm Hc Hu.
  assert (Hf : fetchWeatherData rt env = ([EvFetch (apiUrl env)], Ok JNull)).
  { destruct Hu as [[r [Hr Hok]]|Hu].
    - rewrite fetchWeatherData_run. unfold response_value. rewrite Hr, Hok. reflexivity.
    - exact (fetched_value_of _ _ _ Hu). }
  rewrite (fetch_run rt request env (not_OPTIONS _ Hm) JNull JNull (cached_value_of _ _ Hc) Hf).
  reflexivity.
Qed.

Lemma miss_and_unavailable_gives_503_witness :
  method GET <> "OPTIONS"
  /\ snd (getCachedWeatherData (env_holding CachedNull)) = Ok JNull
  /\ fetch (runtime_with (FetchResolves response_503)) GET (env_holding CachedNull)
     = ([EvKvGet CACHE_KEY; EvFetch (apiUrl (env_holding CachedNull))],
        Ok {| status := 503;
              body := Some (Literal "Unable to fetch weather data");
              headers := corsHeaders |}).
Proof.
  assert (Hm : method GET <> "OPTIONS") by (simpl; discriminate).
  assert (Hc : snd (getCachedWeatherData (env_holding CachedNull)) = Ok JNull)
    by reflexivity.
  split; [exact Hm|]. split; [exact Hc|].
  apply (miss_and_unavailable_gives_503
           (runtime_with (FetchResolves response_503)) GET _ Hm Hc).
  left. exists response_503. split; reflexivity.
Defined.

(** C9.  A request with method OPTIONS is answered at once, whatever the
    cache holds and whatever the upstream would do: status 200, no body,
    the three cross-origin headers (Access-Control-Allow-Origin being "*")
    followed by Access-Control-Allow-Headers, whose value is the inbound
    Access-Control-Request-Headers value, verbatim, when the request has
    one (the empty string otherwise); the invocation makes no platform
    call: no cache read, no cache write, no call of the upstream. *)
Theorem preflight_answered_without_calls rt request env :
  method request = "OPTIONS" ->
  exists response,
    fetch rt request env = ([], Ok response)
    /\ status response = 200
    /\ body response = None
    /\ header "Access-Control-Allow-Origin" (headers response) = Some "*"
    /\ header "Access-Control-Allow-Methods" (headers response) = Some "GET,HEAD,POST,OPTIONS"
    /\ header "Access-Control-Max-Age" (headers response) = Some "86400"
    /\ header "Access-Control-Allow-Headers" (headers response)
       = Some (or_empty (headers_get request "Access-Control-Request-Headers"))
    /\ forall requested,
         headers_get request "Access-Control-Request-Headers" = Some requested ->
         header "Access-Control-Allow-Headers" (headers response) = Some requested.
Proof.
  intros Hm. exists (preflight_response request).
  unfold fetch. rewrite Hm. simpl.
  do 7 (split; [reflexivity|]).
  intros requested Hr. rewrite Hr. reflexivity.
Qed.

Lemma preflight_answered_without_calls_witness :
  method OPTIONS = "OPTIONS"
  /\ exists response,
       fetch (runtime_with (FetchRejects (Exn "fetch failed"))) OPTIONS
             (env_holding (CachedUnparsable (Exn "Unexpected token")))
       = ([], Ok response)
       /\ status response = 200
       /\ body response = None
       /\ header "Access-Control-Allow-Origin" (headers response) = Some "*"
       /\ header "Access-Control-Allow-Methods" (headers response) = Some "GET,HEAD,POST,OPTIONS"
       /\ header "Access-Control-Max-Age" (headers response) = Some "86400"
       /\ header "Access-Control-Allow-Headers" (headers response)
          = Some (or_empty (headers_get OPTIONS "Access-Control-Request-Headers"))
       /\ forall requested,
            headers_get OPTIONS "Access-Control-Request-Headers" = Some requested ->
            header "Access-Control-Allow-Headers" (headers response) = Some requested.
Proof.
  split; [reflexivity|].
  apply (preflight_answered_without_calls _ OPTIONS _). reflexivity.
Defined.






(** ** The timer handler and the cache write *)

Lemma scheduled_cases rt env :
  exists v,
    fetchWeatherData rt env = ([EvFetch (apiUrl env)], Ok v)
    /\ ((v = JNull /\ scheduled rt env = ([EvFetch (apiUrl env)], Ok tt))
        \/ (v <> JNull
            /\ scheduled rt env
               = ([EvFetch (apiUrl env);
                   EvKvPut CACHE_KEY (JSON_stringify v) CACHE_TTL], Ok tt))).
Proof.
  eexists. split; [apply fetchWeatherData_run|].
  rewrite (scheduled_run rt env _ (fetchWeatherData_run rt env)).
  destruct (fetched_null_or_truthy rt env) as [H|H]; simpl in H.
  - left. rewrite H. split; reflexivity.
  - right. rewrite H. split; [|reflexivity].
    intros E. rewrite E in H. discriminate.
Qed.

Lemma Part000_scheduled_cases rt env :
  exists v,
    Part000.fetchWeatherData rt env = ([EvFetch (apiUrl env)], Ok v)
    /\ ((v = JNull /\ Part000.scheduled rt env = ([EvFetch (apiUrl env)], Ok tt))
        \/ (v <> JNull
            /\ Part000.scheduled rt env
               = ([EvFetch (apiUrl env);
                   EvKvPut CACHE_KEY (JSON_stringify v) CACHE_TTL], Ok tt))).
Proof.
  eexists. split; [apply Part000_fetchWeatherData_run|].
  rewrite (Part000_scheduled_run rt env _ (Part000_fetchWeatherData_run rt env)).
  destruct (Part000_fetched_null_or_truthy rt env) as [H|H]; simpl in H.
  - left. rewrite H. split; reflexivity.
  - right. rewrite H. split; [|reflexivity].
    intros E. rewrite E in H. discriminate.
Qed.

(** C6.  Every invocation of the timer handler, in [worker.ts] and in the
    variant alike, starts with the call of the fetcher, which makes the one
    upstream call; the cache is not read, and what the store holds has no
    influence on the invocation.  When the fetcher returns a record, the
    cache write is invoked exactly once, with that record, under the fixed
    key and expiration; when it returns no record, nothing else happens.
    The handler always completes normally: no exception leaves it. *)
Theorem timer_refreshes_unconditionally rt env :
  (exists v,
     fetchWeatherData rt env = ([EvFetch (apiUrl env)], Ok v)
     /\ ((v = JNull /\ scheduled rt env = ([EvFetch (apiUrl env)], Ok tt))
         \/ (v <> JNull
             /\ scheduled rt env
                = ([EvFetch (apiUrl env);
                    EvKvPut CACHE_KEY (JSON_stringify v) CACHE_TTL], Ok tt))))
  /\ (forall g, scheduled rt (with_kv_get env g) = scheduled rt env)
  /\ (exists v,
        Part000.fetchWeatherData rt env = ([EvFetch (apiUrl env)], Ok v)
        /\ ((v = JNull /\ Part000.scheduled rt env = ([EvFetch (apiUrl env)], Ok tt))
            \/ (v <> JNull
                /\ Part000.scheduled rt env
                   = ([EvFetch (apiUrl env);
                       EvKvPut CACHE_KEY (JSON_stringify v) CACHE_TTL], Ok tt))))
  /\ (forall g, Part000.scheduled rt (with_kv_get env g) = Part000.scheduled rt env).
Proof.
  split; [apply scheduled_cases|].
  split; [intros g; reflexivity|].
  split; [apply Part000_scheduled_cases|].
  intros g; reflexivity.
Qed.

(** C8.  The cache write swallows its own errors: whatever the store's
    [put] does, resolve or reject, [setCachedWeatherData] makes the one
    write and returns normally.  Hence replacing the store's [put] by any
    other, a failing one included, changes nothing in what the request
    handler returns (status, body and headers) nor in the timer handler's
    invocation, which completes normally. *)
Theorem cache_write_failure_is_swallowed rt request env put data :
  setCachedWeatherData (with_kv_put env put) data
    = ([EvKvPut CACHE_KEY (JSON_stringify data) CACHE_TTL], Ok tt)
  /\ fetch rt request (with_kv_put env put) = fetch rt request env
  /\ scheduled rt (with_kv_put env put) = scheduled rt env
  /\ snd (scheduled rt env) = Ok tt.
Proof.
  split; [apply setCachedWeatherData_run|].
  split; [|split].
  - destruct (String.eqb (method request) "OPTIONS") eqn:Hm.
    + unfold fetch. rewrite Hm. reflexivity.
    + rewrite (fetch_run rt request env Hm _ _
                 (getCachedWeatherData_run env) (fetchWeatherData_run rt env)).
      rewrite (fetch_run rt request (with_kv_put env put) Hm _ _
                 (getCachedWeatherData_run _) (fetchWeatherData_run rt _)).
      reflexivity.
  - rewrite (scheduled_run rt env _ (fetchWeatherData_run rt env)).
    rewrite (scheduled_run rt (with_kv_put env put) _ (fetchWeatherData_run rt _)).
    reflexivity.
  - rewrite (scheduled_run rt env _ (fetchWeatherData_run rt env)).
    destruct (truthy _); reflexivity.
Qed.

(** ** Totality of the fetchers and completeness of records *)

Lemma lookup_no_undefined k props :
  forallb (fun kv : string * jsval => let (_, x) := kv in has_no_undefined x) props = true ->
  lookup k props = JUndef \/ has_no_undefined (lookup k props) = true.
Proof.
  induction props as [|[k' x] rest IH]; simpl; intros H; [left; reflexivity|].
  apply andb_true_iff in H. destruct H as [Hx Hrest].
  destruct (String.eqb k k'); [right; exact Hx|apply IH; exact Hrest].
Qed.

Lemma field_no_undefined v k :
  has_no_undefined v = true ->
  field v k = JUndef \/ has_no_undefined (field v k) = true.
Proof.
  destruct v; simpl; intros H; try (left; reflexivity).
  apply lookup_no_undefined. exact H.
Qed.

Lemma find_from_undefined elems : forall k,
  forallb has_no_undefined elems = true ->
  find_from (fun t => strict_eq t JUndef) elems k = -1.
Proof.
  induction elems as [|x rest IH]; intros k H; [reflexivity|].
  simpl in H. apply andb_true_iff in H. destruct H as [Hx Hrest].
  simpl. destruct x; simpl in *; try discriminate; apply IH; exact Hrest.
Qed.

(** In a parsed body no hourly label is [undefined]: a reading without a
    time has no exact match. *)
Lemma exact_index_undefined data i :
  has_no_undefined data = true ->
  field (field data "current_weather") "time" = JUndef ->
  exact_index data = Ok i -> i = -1.
Proof.
  intros Hj Hct Hex. unfold exact_index in Hex. rewrite Hct in Hex.
  apply findIndex_ok in Hex. destruct Hex as [elems [Hel ->]].
  apply find_from_undefined.
  destruct (field_no_undefined data "hourly" Hj) as [H|H];
    [rewrite H in Hel; discriminate|].
  destruct (field_no_undefined _ "time" H) as [H'|H'];
    [rewrite H' in Hel; discriminate|].
  rewrite Hel in H'. exact H'.
Qed.

(** [worker.ts]: without a time the exact search fails, the date of
    [undefined] is invalid and [toISOString] throws; no record. *)
Lemma parsed_time_defined rt data v :
  has_no_undefined data = true ->
  fetchWeatherData_parsed rt data = Ok v -> v <> JNull ->
  field (field data "current_weather") "time" <> JUndef.
Proof.
  intros Hj Hp Hnn Hct.
  destruct (nullish data) eqn:Hn.
  - destruct (parsed_nullish rt data Hn) as [e He]. congruence.
  - rewrite (parsed_normal rt data Hn) in Hp.
    destruct (incomplete data); [inversion Hp; subst; apply Hnn; reflexivity|].
    destruct (exact_index data) as [i|e] eqn:Hex; [|discriminate].
    rewrite (exact_index_undefined data i Hj Hct Hex) in Hp. simpl in Hp.
    unfold fallback_index, targetTime in Hp. rewrite Hct in Hp. simpl in Hp.
    discriminate.
Qed.

(** The variant: without a time the search gives [-1]; no record. *)
Lemma Part000_parsed_time_defined rt data v :
  has_no_undefined data = true ->
  Part000.fetchWeatherData_parsed rt data = Ok v -> v <> JNull ->
  field (field data "current_weather") "time" <> JUndef.
Proof.
  intros Hj Hp Hnn Hct.
  destruct (nullish data) eqn:Hn.
  - destruct (Part000_parsed_nullish rt data Hn) as [e He]. congruence.
  - rewrite (Part000_parsed_normal rt data Hn) in Hp. cbv zeta in Hp.
    destruct (truthy (field (field data "hourly") "time")) eqn:Hht.
    + fold (exact_index data) in Hp.
      destruct (exact_index data) as [i|e] eqn:Hex; [|discriminate].
      rewrite (exact_index_undefined data i Hj Hct Hex) in Hp. simpl in Hp.
      inversion Hp; subst. apply Hnn; reflexivity.
    + simpl in Hp. inversion Hp; subst. apply Hnn; reflexivity.
Qed.

Lemma record_of_complete rt data v :
  record_of rt data v ->
  field (field data "current_weather") "time" <> JUndef ->
  is_undefined (field v "timestamp") = false
  /\ complete_record v
     = negb (is_undefined (field (field data "current_weather") "temperature")).
Proof.
  intros [p [c [-> [Hp Hc]]]] Hts.
  assert (Hu : is_undefined (field (field data "current_weather") "time") = false).
  { destruct (field (field data "current_weather") "time");
      try reflexivity. exfalso. apply Hts. reflexivity. }
  unfold complete_record. simpl. rewrite Hp, Hc, Hu. simpl.
  rewrite !andb_true_r. split; reflexivity.
Qed.

Lemma response_value_fetched rt env parsed :
  (forall data v, parsed data = Ok v -> v = JNull \/ record_of rt data v) ->
  (forall data v, has_no_undefined data = true -> parsed data = Ok v -> v <> JNull ->
                  field (field data "current_weather") "time" <> JUndef) ->
  let v := response_value parsed (net rt (apiUrl env)) in
  v = JNull \/ fetched_from_upstream rt env v.
Proof.
  intros Hparsed Htime v.
  destruct (response_value_cases parsed (net rt (apiUrl env)))
    as [H|[r [data [Hr [Hok [Hj H]]]]]]; [left; exact H|].
  destruct (Hparsed _ _ H) as [H0|H0]; [left; exact H0|].
  right. exists r, data. repeat (split; [assumption|]).
  intros Hjson. apply (record_of_complete _ _ _ H0).
  apply (Htime data _ Hjson H).
  destruct H0 as [p [c [E _]]]. subst v. rewrite E. discriminate.
Qed.

Lemma fetched_from_upstream_not_null rt env v : fetched_from_upstream rt env v -> v <> JNull.
Proof.
  intros [r [data [_ [_ [_ [[p [c [-> _]]] _]]]]]]. discriminate.
Qed.

(** C7, as amended.  Whatever the upstream does (the call rejects, the
    status is not a success, the body does not parse, is incomplete, or is
    well formed), each fetcher makes the one upstream call and returns
    normally, never throwing: either [null], or a record made from the body
    of a successful response, with precipitation, cloudcover, timestamp and
    [lastUpdated] defined (the timestamp being the reading's time) and with
    the temperature that the body's reading carries.  That record is
    complete exactly when the reading carries a temperature. *)
Theorem fetcher_never_throws rt env :
  (exists v,
     fetchWeatherData rt env = ([EvFetch (apiUrl env)], Ok v)
     /\ (v = JNull \/ fetched_from_upstream rt env v))
  /\ (exists v,
        Part000.fetchWeatherData rt env = ([EvFetch (apiUrl env)], Ok v)
        /\ (v = JNull \/ fetched_from_upstream rt env v)).
Proof.
  split.
  - eexists. split; [apply fetchWeatherData_run|].
    apply response_value_fetched; [apply parsed_result|apply parsed_time_defined].
  - eexists. split; [apply Part000_fetchWeatherData_run|].
    apply response_value_fetched;
      [apply Part000_parsed_result|apply Part000_parsed_time_defined].
Qed.

Lemma fetcher_never_throws_witness :
  let rt := runtime_with (FetchResolves (response_200 example_body)) in
  let env := env_holding CachedNull in
  has_no_undefined example_body = true
  /\ (exists v,
        fetchWeatherData rt env = ([EvFetch (apiUrl env)], Ok v)
        /\ (v = JNull \/ fetched_from_upstream rt env v))
  /\ (exists v,
        Part000.fetchWeatherData rt env = ([EvFetch (apiUrl env)], Ok v)
        /\ (v = JNull \/ fetched_from_upstream rt env v)).
Proof.
  split; [reflexivity|].
  exact (fetcher_never_throws
           (runtime_with (FetchResolves (response_200 example_body)))
           (env_holding CachedNull)).
Defined.

(** C7, as stated, fails: on a successful response whose reading has a
    time but no temperature, both fetchers return a record whose
    temperature is [undefined]. *)
Lemma fetcher_returns_partial_record :
  let rt := runtime_with (FetchResolves (response_200 body_without_temperature)) in
  let env := env_holding CachedNull in
  let partial := CachedWeatherData JUndef (JNum 0.1) (JNum 25) (JStr "2025-06-26T12:00")
                                   "2025-06-26T12:00:05.000Z" in
  snd (fetchWeatherData rt env) = Ok partial
  /\ snd (Part000.fetchWeatherData rt env) = Ok partial
  /\ partial <> JNull
  /\ complete_record partial = false.
Proof.
  split; [reflexivity|]. split; [reflexivity|]. split; [discriminate|reflexivity].
Qed.

(** What the request handler writes to the store was returned by the
    fetcher in the same invocation. *)
Lemma fetch_puts rt request env key value ttl :
  In (EvKvPut key value ttl) (fst (fetch rt request env)) ->
  exists v, value = JSON_stringify v /\ snd (fetchWeatherData rt env) = Ok v /\ v <> JNull.
Proof.
  destruct (String.eqb (method request) "OPTIONS") eqn:Hm.
  - unfold fetch. rewrite Hm. simpl. tauto.
  - rewrite (fetch_run rt request env Hm _ _
               (getCachedWeatherData_run env) (fetchWeatherData_run rt env)).
    rewrite fetchWeatherData_run.
    destruct (truthy (cache_value _)); simpl.
    + intros [H|[]]; discriminate.
    + destruct (truthy (response_value _ _)) eqn:Hv; simpl.
      * intros [H|[H|[H|[]]]]; try discriminate.
        inversion H; subst. eexists. split; [reflexivity|]. split; [reflexivity|].
        intros E. rewrite E in Hv. discriminate.
      * intros [H|[H|[]]]; discriminate.
Qed.

Lemma scheduled_puts rt env key value ttl :
  In (EvKvPut key value ttl) (fst (scheduled rt env)) ->
  exists v, value = JSON_stringify v /\ snd (fetchWeatherData rt env) = Ok v /\ v <> JNull.
Proof.
  rewrite (scheduled_run rt env _ (fetchWeatherData_run rt env)).
  rewrite fetchWeatherData_run.
  destruct (truthy (response_value _ _)) eqn:Hv; simpl.
  - intros [H|[H|[]]]; try discriminate.
    inversion H; subst. eexists. split; [reflexivity|]. split; [reflexivity|].
    intros E. rewrite E in Hv. discriminate.
  - intros [H|[]]; discriminate.
Qed.

(** A JSON body of the request handler is the cached value or the value
    the fetcher returned. *)
Lemma fetch_json_body rt request env response w :
  snd (fetch rt request env) = Ok response ->
  body response = Some (JSON_stringify w) ->
  status response = 200
  /\ ((snd (getCachedWeatherData env) = Ok w /\ truthy w = true)
      \/ (snd (fetchWeatherData rt env) = Ok w /\ w <> JNull)).
Proof.
  destruct (String.eqb (method request) "OPTIONS") eqn:Hm.
  - unfold fetch. rewrite Hm. simpl. intros H; inversion H; subst. discriminate.
  - rewrite (fetch_run rt request env Hm _ _
               (getCachedWeatherData_run env) (fetchWeatherData_run rt env)).
    rewrite fetchWeatherData_run, getCachedWeatherData_run.
    destruct (truthy (cache_value _)) eqn:Hc; simpl.
    + intros H Hb; inversion H; subst. simpl in Hb. inversion Hb; subst.
      split; [reflexivity|]. left. split; [reflexivity|exact Hc].
    + destruct (truthy (response_value _ _)) eqn:Hv; simpl.
      * intros H Hb; inversion H; subst. simpl in Hb. inversion Hb; subst.
        split; [reflexivity|]. right. split; [reflexivity|].
        intros E. rewrite E in Hv. discriminate.
      * intros H Hb; inversion H; subst. discriminate.
Qed.

(** C5, as amended.  What either handler writes to the store is a record
    that the fetcher made, in the same invocation, from the body of a
    successful upstream response; the JSON body of a response of the
    request handler is such a record or the value deserialised from the
    cache, returned as it is, without validation.  A record made by the
    fetcher has precipitation, cloudcover, timestamp and [lastUpdated]
    defined (the fetch step returns no record rather than one without
    them) and the temperature that the reading carries, so that it has all
    five fields defined exactly when the reading carries a temperature. *)
Theorem records_stored_and_returned rt request env :
  (forall key value ttl,
     In (EvKvPut key value ttl) (fst (fetch rt request env) ++ fst (scheduled rt env))%list ->
     exists v, value = JSON_stringify v /\ fetched_from_upstream rt env v)
  /\ (forall response w,
        snd (fetch rt request env) = Ok response ->
        body response = Some (JSON_stringify w) ->
        fetched_from_upstream rt env w \/ snd (getCachedWeatherData env) = Ok w).
Proof.
  assert (Hfetched : forall v, snd (fetchWeatherData rt env) = Ok v -> v <> JNull ->
                               fetched_from_upstream rt env v).
  { intros v Hv Hnn. rewrite fetchWeatherData_run in Hv. simpl in Hv.
    inversion Hv as [E].
    destruct (response_value_fetched rt env _ (parsed_result rt) (parsed_time_defined rt))
      as [H|H].
    - exfalso. apply Hnn. rewrite <- E. exact H.
    - exact H. }
  split.
  - intros key value ttl Hin. apply in_app_or in Hin.
    destruct Hin as [Hin|Hin];
      [apply fetch_puts in Hin | apply scheduled_puts in Hin];
      destruct Hin as [v [Hval [Hv Hnn]]]; exists v; split; auto.
  - intros response w Hr Hb.
    destruct (fetch_json_body _ _ _ _ _ Hr Hb) as [_ [[Hc _]|[Hv Hnn]]].
    + right. exact Hc.
    + left. apply Hfetched; assumption.
Qed.

Lemma records_stored_and_returned_witness :
  let rt := runtime_with (FetchResolves (response_200 example_body)) in
  let env := env_holding CachedNull in
  has_no_undefined example_body = true
  /\ (forall key value ttl,
        In (EvKvPut key value ttl) (fst (fetch rt GET env) ++ fst (scheduled rt env))%list ->
        exists v, value = JSON_stringify v /\ fetched_from_upstream rt env v)
  /\ (forall response w,
        snd (fetch rt GET env) = Ok response ->
        body response = Some (JSON_stringify w) ->
        fetched_from_upstream rt env w \/ snd (getCachedWeatherData env) = Ok w).
Proof.
  split; [reflexivity|].
  exact (records_stored_and_returned
           (runtime_with (FetchResolves (response_200 example_body))) GET
           (env_holding CachedNull)).
Defined.

(** C5, as stated, fails on both paths.  A cached value that lacks a field
    is returned as it is; and a body whose reading has no temperature
    yields a record with an undefined temperature, which is stored and
    returned. *)
Lemma partial_record_returned_and_stored :
  let partial := CachedWeatherData JUndef (JNum 0.1) (JNum 25) (JStr "2025-06-26T12:00")
                                   "2025-06-26T12:00:05.000Z" in
  fetch (runtime_with (FetchRejects (Exn "fetch failed"))) GET
        (env_holding (CachedJson cached_without_temperature))
  = ([EvKvGet CACHE_KEY],
     Ok {| status := 200;
           body := Some (JSON_stringify cached_without_temperature);
           headers := ("Content-Type", "application/json") :: corsHeaders |})
  /\ complete_record cached_without_temperature = false
  /\ fetch (runtime_with (FetchResolves (response_200 body_without_temperature))) GET
           (env_holding CachedNull)
     = ([EvKvGet CACHE_KEY;
         EvFetch (apiUrl (env_holding CachedNull));
         EvKvPut CACHE_KEY (JSON_stringify partial) CACHE_TTL],
        Ok {| status := 200;
              body := Some (JSON_stringify partial);
              headers := ("Content-Type", "application/json") :: corsHeaders |})
  /\ complete_record partial = false.
Proof.
  split; [reflexivity|]. split; [reflexivity|]. split; reflexivity.
Qed.

(** ** The two fetchers compared *)

Lemma parsed_agree rt data :
  or_null (fetchWeatherData_parsed rt data) = or_null (Part000.fetchWeatherData_parsed rt data)
  \/ (incomplete data = false /\ exact_index data = Ok (-1)).
Proof.
  destruct (nullish data) eqn:Hn.
  - destruct (parsed_nullish rt data Hn) as [e ->].
    destruct (Part000_parsed_nullish rt data Hn) as [e' ->].
    left; reflexivity.
  - rewrite (parsed_normal rt data Hn), (Part000_parsed_normal rt data Hn).
    unfold incomplete, exact_index. cbv zeta.
    destruct (truthy (field data "current_weather")); simpl;
      [|left; destruct (findIndex _ _); simpl; [rewrite orb_true_r|]; reflexivity].
    destruct (truthy (field (field data "hourly") "precipitation")); simpl;
      [|left; destruct (findIndex _ _); simpl; [rewrite orb_true_r|]; reflexivity].
    destruct (truthy (field (field data "hourly") "cloudcover")); simpl;
      [|left; destruct (findIndex _ _); simpl; [rewrite orb_true_r|]; reflexivity].
    destruct (truthy (field (field data "hourly") "time")); simpl;
      [|left; reflexivity].
    destruct (findIndex _ _) as [i|e]; simpl; [|left; reflexivity].
    rewrite !orb_false_r.
    destruct (i =? -1) eqn:Hi.
    + right. apply Z.eqb_eq in Hi. subst i. split; reflexivity.
    + left. reflexivity.
Qed.

Lemma fetchers_agree_or rt env :
  fetchWeatherData rt env = Part000.fetchWeatherData rt env
  \/ exists r data,
       net rt (apiUrl env) = FetchResolves r /\ ok r = true /\ json r = Ok data
       /\ incomplete data = false /\ exact_index data = Ok (-1).
Proof.
  rewrite fetchWeatherData_run, Part000_fetchWeatherData_run.
  unfold response_value.
  destruct (net rt (apiUrl env)) as [e|r]; [left; reflexivity|].
  destruct (ok r) eqn:Hok; simpl; [|left; reflexivity].
  destruct (json r) as [data|e] eqn:Hj; simpl; [|left; reflexivity].
  destruct (parsed_agree rt data) as [H|[Hinc Hex]].
  - left. rewrite H. reflexivity.
  - right. exists r, data. auto.
Qed.

Lemma exact_index_well_formed data t ct times ps cs i :
  well_formed data t ct times ps cs -> first_match ct times i ->
  exact_index data = Ok (Z.of_nat i).
Proof.
  intros [_ [Hct [Hts _]]] Hi. unfold exact_index. rewrite Hts, Hct. simpl.
  rewrite (find_from_first ct times i 0 Hi). reflexivity.
Qed.

(** C10.  The fetcher of [worker.ts] and that of the variant return the
    same result, with the same upstream call, when the call rejects, when
    the status is not a success, when the body lacks the reading or one of
    the three hourly arrays, and when the body is well formed and its
    hourly labels contain the reading's time.  They return the same result
    on every other input too, except possibly on a successful response
    whose body has the reading and the three arrays and whose time array
    holds no element strictly equal to the reading's time.  Both read the
    same clock, so equal results have equal [lastUpdated]. *)
Theorem fetchers_agree_unless_no_exact_match rt env :
  (forall e, net rt (apiUrl env) = FetchRejects e ->
             fetchWeatherData rt env = Part000.fetchWeatherData rt env)
  /\ (forall r, net rt (apiUrl env) = FetchResolves r -> ok r = false ->
                fetchWeatherData rt env = Part000.fetchWeatherData rt env)
  /\ (forall r data,
        net rt (apiUrl env) = FetchResolves r -> ok r = true -> json r = Ok data ->
        incomplete data = true ->
        fetchWeatherData rt env = Part000.fetchWeatherData rt env)
  /\ (forall r data t ct times ps cs,
        net rt (apiUrl env) = FetchResolves r -> ok r = true -> json r = Ok data ->
        well_formed data t ct times ps cs -> In ct times ->
        fetchWeatherData rt env = Part000.fetchWeatherData rt env)
  /\ (fetchWeatherData rt env = Part000.fetchWeatherData rt env
      \/ exists r data,
           net rt (apiUrl env) = FetchResolves r /\ ok r = true /\ json r = Ok data
           /\ incomplete data = false /\ exact_index data = Ok (-1)).
Proof.
  pose proof (fetchers_agree_or rt env) as Hor.
  split; [|split; [|split; [|split]]].
  - intros e He. destruct Hor as [H|[r [data [Hr _]]]]; [exact H|congruence].
  - intros r Hr Hok. destruct Hor as [H|[r' [data [Hr' [Hok' _]]]]]; [exact H|congruence].
  - intros r data Hr Hok Hj Hinc.
    destruct Hor as [H|[r' [data' [Hr' [Hok' [Hj' [Hinc' _]]]]]]]; [exact H|].
    assert (r' = r) by congruence. subst r'.
    assert (data' = data) by congruence. subst data'. congruence.
  - intros r data t ct times ps cs Hr Hok Hj Hwf Hin.
    destruct Hor as [H|[r' [data' [Hr' [Hok' [Hj' [_ Hex]]]]]]]; [exact H|].
    assert (r' = r) by congruence. subst r'.
    assert (data' = data) by congruence. subst data'.
    destruct (first_match_exists ct times Hin) as [i Hi].
    rewrite (exact_index_well_formed _ _ _ _ _ _ _ Hwf Hi) in Hex.
    inversion Hex. lia.
  - exact Hor.
Qed.

Lemma fetchers_agree_unless_no_exact_match_witness :
  let rt := runtime_with (FetchResolves (response_200 example_body)) in
  let env := env_holding CachedNull in
  let times := ["2025-06-26T12:00"; "2025-06-26T13:00"] in
  net rt (apiUrl env) = FetchResolves (response_200 example_body)
  /\ ok (response_200 example_body) = true
  /\ json (response_200 example_body) = Ok example_body
  /\ well_formed example_body 23.1%float "2025-06-26T12:00" times [0.1; 0.2]%float [25; 35]%float
  /\ In "2025-06-26T12:00" times
  /\ fetchWeatherData rt env = Part000.fetchWeatherData rt env.
Proof.
  assert (Hwf : well_formed example_body 23.1%float "2025-06-26T12:00"
                  ["2025-06-26T12:00"; "2025-06-26T13:00"] [0.1; 0.2]%float [25; 35]%float).
  { unfold well_formed. simpl. tauto. }
  assert (Hin : In "2025-06-26T12:00" ["2025-06-26T12:00"; "2025-06-26T13:00"])
    by (simpl; tauto).
  split; [reflexivity|]. split; [reflexivity|]. split; [reflexivity|].
  split; [exact Hwf|]. split; [exact Hin|].
  exact (proj1 (proj2 (proj2 (proj2
           (fetchers_agree_unless_no_exact_match
              (runtime_with (FetchResolves (response_200 example_body)))
              (env_holding CachedNull)))))
           (response_200 example_body) example_body _ _ _ _ _
           eq_refl eq_refl eq_refl Hwf Hin).
Defined.

(** ** Selection of the hourly index *)

Lemma fetched_of_parsed rt env r data parsed :
  net rt (apiUrl env) = FetchResolves r -> ok r = true -> json r = Ok data ->
  response_value parsed (net rt (apiUrl env)) = or_null (parsed data).
Proof. intros Hr Hok Hj. unfold response_value. rewrite Hr, Hok, Hj. reflexivity. Qed.

Lemma exact_index_object data i :
  exact_index data = Ok i ->
  nullish data = false /\ truthy (field (field data "hourly") "time") = true.
Proof.
  unfold exact_index. intros H. apply findIndex_ok in H. destruct H as [elems [H _]].
  rewrite H. split; [|reflexivity].
  destruct data; simpl in H; try discriminate; reflexivity.
Qed.

(** C2, as amended.  On a successful response with body [data] whose
    hourly time array is searched for an element strictly equal to the
    reading's time, [i] being the first such index and [-1] when there is
    none:
    - the variant returns no record when [i] is [-1];
    - on a body that has the reading and the three arrays, the variant and
      [worker.ts] both read the hourly values at [i] when [i] is not [-1];
    - [worker.ts], when [i] is [-1], does not signal unavailable for want
      of a match: it returns no record if the reading's time is not a valid
      date, and otherwise reads the hourly values at the index of the label
      made of the reading's UTC date and hour, or at index 0 when no hourly
      label is that one (the message logged in that case being built
      without error, as it is whenever the labels are strings).
    Reading at an index gives the record, or no record when a value is
    missing there. *)
Theorem index_selection rt env r data i :
  net rt (apiUrl env) = FetchResolves r ->
  ok r = true ->
  json r = Ok data ->
  exact_index data = Ok i ->
  let currentTime := field (field data "current_weather") "time" in
  let hourlyTimes := field (field data "hourly") "time" in
  (i = -1 -> snd (Part000.fetchWeatherData rt env) = Ok JNull)
  /\ (incomplete data = false -> i <> -1 ->
      snd (Part000.fetchWeatherData rt env) = Ok (or_null (record_at rt data currentTime i))
      /\ snd (fetchWeatherData rt env) = Ok (or_null (record_at rt data currentTime i)))
  /\ (incomplete data = false -> i = -1 ->
      forall e, targetTime rt currentTime = Throw e ->
      snd (fetchWeatherData rt env) = Ok JNull)
  /\ (incomplete data = false -> i = -1 ->
      forall target j,
        targetTime rt currentTime = Ok target ->
        findIndex hourlyTimes (fun t => strict_eq t (JStr target)) = Ok j ->
        (j <> -1 ->
         snd (fetchWeatherData rt env) = Ok (or_null (record_at rt data currentTime j)))
        /\ (j = -1 -> log_first_available currentTime hourlyTimes = Ok tt ->
            snd (fetchWeatherData rt env) = Ok (or_null (record_at rt data currentTime 0)))).
Proof.
  intros Hr Hok Hj Hex currentTime hourlyTimes.
  destruct (exact_index_object data i Hex) as [Hn Hht].
  rewrite fetchWeatherData_run, Part000_fetchWeatherData_run. simpl.
  rewrite !(fetched_of_parsed rt env r data _ Hr Hok Hj).
  rewrite (parsed_normal rt data Hn), (Part000_parsed_normal rt data Hn).
  cbv zeta. rewrite Hht. fold (exact_index data). rewrite Hex. simpl.
  split; [|split; [|split]].
  - intros ->. reflexivity.
  - intros Hinc Hi. rewrite Hinc.
    replace (i =? -1) with false by (symmetry; apply Z.eqb_neq; exact Hi).
    unfold incomplete in Hinc. rewrite Hht in Hinc. simpl in Hinc.
    rewrite orb_false_r in Hinc. simpl. rewrite Hinc. simpl. split; reflexivity.
  - intros Hinc -> e He. rewrite Hinc. simpl.
    unfold fallback_index. cbv zeta. fold currentTime. rewrite He. reflexivity.
  - intros Hinc -> target j Ht Hfind. rewrite Hinc. simpl.
    unfold fallback_index. cbv zeta. fold currentTime hourlyTimes. rewrite Ht. simpl.
    rewrite Hfind. simpl. split.
    + intros Hjn.
      replace (j =? -1) with false by (symmetry; apply Z.eqb_neq; exact Hjn).
      reflexivity.
    + intros -> Hlog. simpl. rewrite Hlog. reflexivity.
Qed.

Lemma index_selection_witness :
  let rt := runtime_with (FetchResolves (response_200 body_half_past)) in
  let env := env_holding CachedNull in
  let currentTime := field (field body_half_past "current_weather") "time" in
  let hourlyTimes := field (field body_half_past "hourly") "time" in
  net rt (apiUrl env) = FetchResolves (response_200 body_half_past)
  /\ ok (response_200 body_half_past) = true
  /\ json (response_200 body_half_past) = Ok body_half_past
  /\ exact_index body_half_past = Ok (-1)
  /\ incomplete body_half_past = false
  /\ targetTime rt currentTime = Ok "2025-06-26T13:00"
  /\ findIndex hourlyTimes (fun t => strict_eq t (JStr "2025-06-26T13:00")) = Ok 1
  /\ snd (Part000.fetchWeatherData rt env) = Ok JNull
  /\ snd (fetchWeatherData rt env)
     = Ok (or_null (record_at rt body_half_past currentTime 1)).
Proof.
  pose proof (index_selection
                (runtime_with (FetchResolves (response_200 body_half_past)))
                (env_holding CachedNull) (response_200 body_half_past) body_half_past (-1)
                eq_refl eq_refl eq_refl eq_refl) as [Hstrict [_ [_ Hfallback]]].
  split; [reflexivity|]. split; [reflexivity|]. split; [reflexivity|].
  split; [reflexivity|]. split; [reflexivity|]. split; [reflexivity|].
  split; [reflexivity|].
  split; [exact (Hstrict eq_refl)|].
  refine (proj1 (Hfallback eq_refl eq_refl "2025-06-26T13:00" 1 eq_refl eq_refl) _).
  discriminate.
Defined.

(** C2, as stated, fails for [worker.ts]: with no hourly label equal to the
    reading's time, its fetcher returns a record, read at the index of the
    reading's hour when that label exists and at index 0 otherwise; the
    variant returns no record on the same inputs. *)
Lemma worker_falls_back_without_exact_match :
  let env := env_holding CachedNull in
  exact_index body_half_past = Ok (-1)
  /\ snd (fetchWeatherData (runtime_with (FetchResolves (response_200 body_half_past))) env)
     = Ok (CachedWeatherData (JNum 23.1) (JNum 0.2) (JNum 35) (JStr "2025-06-26T13:30")
                             "2025-06-26T12:00:05.000Z")
  /\ snd (Part000.fetchWeatherData
            (runtime_with (FetchResolves (response_200 body_half_past))) env)
     = Ok JNull
  /\ exact_index body_next_day = Ok (-1)
  /\ snd (fetchWeatherData (runtime_with (FetchResolves (response_200 body_next_day))) env)
     = Ok (CachedWeatherData (JNum 23.1) (JNum 0.1) (JNum 25) (JStr "2025-06-27T09:30")
                             "2025-06-26T12:00:05.000Z")
  /\ snd (Part000.fetchWeatherData
            (runtime_with (FetchResolves (response_200 body_next_day))) env)
     = Ok JNull.
Proof.
  split; [reflexivity|]. split; [reflexivity|]. split; [reflexivity|].
  split; [reflexivity|]. split; reflexivity.
Qed.

(** * Further properties of the code *)

(** ** Helpers *)

Lemma Part000_fetch_run rt request env :
  String.eqb (method request) "OPTIONS" = false ->
  forall cachedData fetched,
  getCachedWeatherData env = ([EvKvGet CACHE_KEY], Ok cachedData) ->
  Part000.fetchWeatherData rt env = ([EvFetch (apiUrl env)], Ok fetched) ->
  Part000.fetch rt request env =
    if truthy cachedData then ([EvKvGet CACHE_KEY], Ok (json_response cachedData))
    else if truthy fetched then
      ([EvKvGet CACHE_KEY; EvFetch (apiUrl env);
        EvKvPut CACHE_KEY (JSON_stringify fetched) CACHE_TTL],
       Ok (json_response fetched))
    else ([EvKvGet CACHE_KEY; EvFetch (apiUrl env)], Ok unavailable_response).
Proof.
  intros Hm cachedData fetched Hc Hf.
  unfold Part000.fetch. rewrite Hm, Hc. unfold bind at 1.
  destruct (truthy cachedData); simpl; [reflexivity|].
  rewrite Hf. unfold bind at 1.
  destruct (truthy fetched); simpl; [|reflexivity].
  rewrite setCachedWeatherData_run. reflexivity.
Qed.

Lemma find_from_none p elems : forall k,
  0 <= k -> find_from p elems k = -1 -> Forall (fun x => p x = false) elems.
Proof.
  induction elems as [|x rest IH]; intros k Hk H; [constructor|].
  simpl in H. destruct (p x) eqn:Hp; [lia|].
  constructor; [exact Hp|]. apply (IH (k + 1)); [lia|exact H].
Qed.

Lemma findIndex_not_array v p :
  (forall elems, v <> JArr elems) -> exists e, findIndex v p = Throw e.
Proof.
  intros H. destruct v; simpl; eauto. exfalso. apply (H elems). reflexivity.
Qed.

Lemma nth_beyond (l : list jsval) i : (List.length l <= i)%nat -> nth i l JUndef = JUndef.
Proof. intros H. apply nth_overflow. exact H. Qed.


Lemma get_index_array elems i :
  get_index (JArr elems) (Z.of_nat i) = Ok (nth i elems JUndef).
Proof.
  simpl. replace (Z.of_nat i <? 0) with false by (symmetry; apply Z.ltb_ge; lia).
  rewrite Nat2Z.id. reflexivity.
Qed.

(** Reading at an index of two arrays. *)
Lemma record_at_arrays rt data currentTime i ps cs :
  nullish data = false ->
  truthy (field data "current_weather") = true ->
  field (field data "hourly") "precipitation" = JArr ps ->
  field (field data "hourly") "cloudcover" = JArr cs ->
  or_null (record_at rt data currentTime (Z.of_nat i)) =
    if is_undefined (nth i ps JUndef) || is_undefined (nth i cs JUndef) then JNull
    else CachedWeatherData (field (field data "current_weather") "temperature")
           (nth i ps JUndef) (nth i cs JUndef) currentTime (now rt).
Proof.
  intros Hn Hcw Hps Hcs. unfold record_at.
  assert (Hh : nullish (field data "hourly") = false).
  { apply (field_defined_object _ "precipitation"). rewrite Hps. reflexivity. }
  rewrite !(hourly_prop_field data _ Hn Hh), Hps, Hcs. cbn [rbind].
  rewrite !get_index_array. cbn [rbind].
  destruct (is_undefined (nth i ps JUndef) || is_undefined (nth i cs JUndef)) eqn:Hu;
    [reflexivity|].
  rewrite (get_prop_field _ _ Hn). cbn [rbind].
  rewrite (get_prop_field _ _ (truthy_not_nullish _ Hcw)). reflexivity.
Qed.

(** ** The request handler on every input *)


(** X2.  Every response of the request handler, the 503 and the pre-flight
    answer included, is built with the three cross-origin headers and their
    fixed values; a response whose body is a serialised value is built with
    the Content-Type application/json. *)
Theorem every_response_has_cors_headers rt request env :
  exists response,
    snd (fetch rt request env) = Ok response
    /\ header "Access-Control-Allow-Origin" (headers response) = Some "*"
    /\ header "Access-Control-Allow-Methods" (headers response) = Some "GET,HEAD,POST,OPTIONS"
    /\ header "Access-Control-Max-Age" (headers response) = Some "86400"
    /\ match body response with
       | Some (Stringified _) =>
           header "Content-Type" (headers response) = Some "application/json"
       | _ => True
       end.
Proof.
  destruct (String.eqb (method request) "OPTIONS") eqn:Hm.
  - exists (preflight_response request).
    unfold fetch. rewrite Hm. simpl. repeat split.
  - rewrite (fetch_run rt request env Hm _ _
               (getCachedWeatherData_run env) (fetchWeatherData_run rt env)).
    destruct (truthy (cache_value _)); [eexists; simpl; repeat split|].
    destruct (truthy (response_value _ _)); eexists; simpl; repeat split.
Qed.

(** X3.  Apart from the test for OPTIONS the handler does not look at the
    request: two requests whose methods are not OPTIONS get the same
    response after the same platform calls, whatever their methods and
    headers. *)
Theorem request_only_matters_for_preflight rt request request' env :
  method request <> "OPTIONS" ->
  method request' <> "OPTIONS" ->
  fetch rt request env = fetch rt request' env.
Proof.
  intros Hm Hm'.
  rewrite (fetch_run rt request env (not_OPTIONS _ Hm) _ _
             (getCachedWeatherData_run env) (fetchWeatherData_run rt env)).
  rewrite (fetch_run rt request' env (not_OPTIONS _ Hm') _ _
             (getCachedWeatherData_run env) (fetchWeatherData_run rt env)).
  reflexivity.
Qed.

Lemma request_only_matters_for_preflight_witness :
  method GET <> "OPTIONS"
  /\ method POST <> "OPTIONS"
  /\ fetch (runtime_with (FetchResolves (response_200 example_body))) GET
           (env_holding CachedNull)
     = fetch (runtime_with (FetchResolves (response_200 example_body))) POST
             (env_holding CachedNull).
Proof.
  assert (Hg : method GET <> "OPTIONS") by (simpl; discriminate).
  assert (Hp : method POST <> "OPTIONS") by (simpl; discriminate).
  split; [exact Hg|]. split; [exact Hp|].
  exact (request_only_matters_for_preflight _ GET POST _ Hg Hp).
Defined.

(** X4.  A cached string that parses to a falsy value ([null], [false],
    [0], the empty string) counts as a miss: the handler does what it does
    when the key is absent. *)
Theorem falsy_cached_value_is_a_miss rt request env v :
  snd (getCachedWeatherData env) = Ok v ->
  truthy v = false ->
  fetch rt request env
  = fetch rt request (with_kv_get env (fun _ => GetResolves CachedNull)).
Proof.
  intros Hc Hv.
  destruct (String.eqb (method request) "OPTIONS") eqn:Hm.
  - unfold fetch. rewrite Hm. reflexivity.
  - rewrite (fetch_run rt request env Hm v _
               (cached_value_of _ _ Hc) (fetchWeatherData_run rt env)).
    rewrite (fetch_run rt request (with_kv_get env (fun _ => GetResolves CachedNull)) Hm
               JNull _ eq_refl (fetchWeatherData_run rt _)).
    rewrite Hv. reflexivity.
Qed.

Lemma falsy_cached_value_is_a_miss_witness :
  let env := env_holding (CachedJson (JNum 0)) in
  snd (getCachedWeatherData env) = Ok (JNum 0)
  /\ truthy (JNum 0) = false
  /\ fetch (runtime_with (FetchResolves (response_200 example_body))) GET env
     = fetch (runtime_with (FetchResolves (response_200 example_body))) GET
             (with_kv_get env (fun _ => GetResolves CachedNull)).
Proof.
  split; [reflexivity|]. split; [reflexivity|].
  exact (falsy_cached_value_is_a_miss
           (runtime_with (FetchResolves (response_200 example_body))) GET
           (env_holding (CachedJson (JNum 0))) (JNum 0) eq_refl eq_refl).
Defined.

(** X5.  The cache read makes one [get], under the fixed key, and never
    throws: it returns the parsed value when the store resolves to a
    non-empty string that is JSON, and [null] in every other case (the
    [get] rejects, resolves to [null] or to the empty string, or the string
    does not parse). *)
Theorem cache_read_collapses_failures env :
  exists v,
    getCachedWeatherData env = ([EvKvGet "weather_fukuoka"], Ok v)
    /\ v = match kv_get (WEATHER_CACHE env) "weather_fukuoka" with
           | GetResolves (CachedJson parsed) => parsed
           | _ => JNull
           end.
Proof.
  eexists. split; [apply getCachedWeatherData_run|].
  unfold cache_value. change CACHE_KEY with "weather_fukuoka".
  destruct (kv_get (WEATHER_CACHE env) "weather_fukuoka") as [e|[ | |e|parsed]];
    reflexivity.
Qed.

Lemma fetch_trace_cases rt request env :
  fst (fetch rt request env) = []
  \/ fst (fetch rt request env) = [EvKvGet CACHE_KEY]
  \/ fst (fetch rt request env) = [EvKvGet CACHE_KEY; EvFetch (apiUrl env)]
  \/ exists v,
       fst (fetch rt request env)
       = [EvKvGet CACHE_KEY; EvFetch (apiUrl env);
          EvKvPut CACHE_KEY (JSON_stringify v) CACHE_TTL].
Proof.
  destruct (String.eqb (method request) "OPTIONS") eqn:Hm.
  - left. unfold fetch. rewrite Hm. reflexivity.
  - right.
    rewrite (fetch_run rt request env Hm _ _
               (getCachedWeatherData_run env) (fetchWeatherData_run rt env)).
    destruct (truthy (cache_value _)); [left; reflexivity|right].
    destruct (truthy (response_value _ _)); [right; eexists|left]; reflexivity.
Qed.

(** X6.  Every platform call of either handler has fixed arguments: the
    upstream is called at the configured base followed by the fixed query,
    the cache is read and written under the key [weather_fukuoka] only, and
    every write stores a serialised value with an expiration of 14400
    seconds. *)
Theorem platform_calls_have_fixed_arguments rt request env :
  Forall (fixed_call env) (fst (fetch rt request env))
  /\ Forall (fixed_call env) (fst (scheduled rt env)).
Proof.
  assert (Hg : fixed_call env (EvKvGet CACHE_KEY)) by reflexivity.
  assert (Hf : fixed_call env (EvFetch (apiUrl env))) by reflexivity.
  assert (Hp : forall v, fixed_call env (EvKvPut CACHE_KEY (JSON_stringify v) CACHE_TTL))
    by (intros v; split; reflexivity).
  split.
  - destruct (fetch_trace_cases rt request env) as [H|[H|[H|[v H]]]];
      rewrite H; repeat constructor; auto.
  - rewrite (scheduled_run rt env _ (fetchWeatherData_run rt env)).
    destruct (truthy _); simpl; repeat constructor; auto.
Qed.

(** X7.  On a miss the request handler does, after the cache read, what a
    timer invocation does: the same upstream call and the same write; its
    response is the 503 when the timer invocation would write nothing and
    the JSON of the written record otherwise. *)
Theorem miss_is_read_then_refresh rt request env v :
  method request <> "OPTIONS" ->
  snd (getCachedWeatherData env) = Ok v ->
  truthy v = false ->
  exists fetched,
    snd (fetchWeatherData rt env) = Ok fetched
    /\ fst (fetch rt request env) = EvKvGet CACHE_KEY :: fst (scheduled rt env)
    /\ fst (scheduled rt env)
       = EvFetch (apiUrl env)
         :: (if truthy fetched
             then [EvKvPut CACHE_KEY (JSON_stringify fetched) CACHE_TTL] else [])
    /\ snd (fetch rt request env)
       = Ok (if truthy fetched then json_response fetched else unavailable_response).
Proof.
  intros Hm Hc Hv. eexists.
  rewrite (fetch_run rt request env (not_OPTIONS _ Hm) v _
             (cached_value_of _ _ Hc) (fetchWeatherData_run rt env)).
  rewrite (scheduled_run rt env _ (fetchWeatherData_run rt env)).
  rewrite fetchWeatherData_run, Hv.
  split; [reflexivity|].
  destruct (truthy (response_value _ _)); repeat split.
Qed.

Lemma miss_is_read_then_refresh_witness :
  let rt := runtime_with (FetchResolves (response_200 example_body)) in
  let env := env_holding CachedEmpty in
  method GET <> "OPTIONS"
  /\ snd (getCachedWeatherData env) = Ok JNull
  /\ truthy JNull = false
  /\ exists fetched,
       snd (fetchWeatherData rt env) = Ok fetched
       /\ fst (fetch rt GET env) = EvKvGet CACHE_KEY :: fst (scheduled rt env)
       /\ fst (scheduled rt env)
          = EvFetch (apiUrl env)
            :: (if truthy fetched
                then [EvKvPut CACHE_KEY (JSON_stringify fetched) CACHE_TTL] else [])
       /\ snd (fetch rt GET env)
          = Ok (if truthy fetched then json_response fetched else unavailable_response).
Proof.
  assert (Hm : method GET <> "OPTIONS") by (simpl; discriminate).
  split; [exact Hm|]. split; [reflexivity|]. split; [reflexivity|].
  exact (miss_is_read_then_refresh
           (runtime_with (FetchResolves (response_200 example_body))) GET
           (env_holding CachedEmpty) JNull Hm eq_refl eq_refl).
Defined.

(** ** The fetchers on particular bodies *)

Lemma fetched_parsed rt env r data :
  net rt (apiUrl env) = FetchResolves r -> ok r = true -> json r = Ok data ->
  snd (fetchWeatherData rt env) = Ok (or_null (fetchWeatherData_parsed rt data))
  /\ snd (Part000.fetchWeatherData rt env)
     = Ok (or_null (Part000.fetchWeatherData_parsed rt data)).
Proof.
  intros Hr Hok Hj.
  rewrite fetchWeatherData_run, Part000_fetchWeatherData_run. simpl.
  rewrite !(fetched_of_parsed rt env r data _ Hr Hok Hj). split; reflexivity.
Qed.

(** Both fetchers on a body whose exact search succeeds at [i]. *)
Lemma parsed_at_exact_index rt data i :
  exact_index data = Ok i -> i <> -1 ->
  or_null (fetchWeatherData_parsed rt data)
  = (if incomplete data then JNull
     else or_null (record_at rt data (field (field data "current_weather") "time") i))
  /\ or_null (Part000.fetchWeatherData_parsed rt data)
     = (if incomplete data then JNull
        else or_null (record_at rt data (field (field data "current_weather") "time") i)).
Proof.
  intros Hex Hi.
  destruct (exact_index_object data i Hex) as [Hn Hht].
  rewrite (parsed_normal rt data Hn), (Part000_parsed_normal rt data Hn).
  cbv zeta. rewrite Hht. fold (exact_index data). rewrite Hex.
  replace (incomplete data)
    with (negb (truthy (field data "current_weather"))
          || negb (truthy (field (field data "hourly") "precipitation"))
          || negb (truthy (field (field data "hourly") "cloudcover")))
    by (unfold incomplete; rewrite Hht; simpl; rewrite orb_false_r; reflexivity).
  cbn [rbind].
  replace (i =? -1) with false by (symmetry; apply Z.eqb_neq; exact Hi).
  cbn [rbind orb]. split; destruct (_ || _); reflexivity.
Qed.

(** X8.  When the hourly time array holds an element strictly equal to the
    reading's time, the fetcher of [worker.ts] does not consult [Date]:
    its result is the same under any date parsing and time zone of the
    runtime. *)
Theorem exact_match_needs_no_date rt env r data i dv :
  net rt (apiUrl env) = FetchResolves r ->
  ok r = true ->
  json r = Ok data ->
  exact_index data = Ok i ->
  i <> -1 ->
  fetchWeatherData (with_Date_value rt dv) env = fetchWeatherData rt env.
Proof.
  intros Hr Hok Hj Hex Hi.
  rewrite !fetchWeatherData_run. f_equal. f_equal.
  change (net (with_Date_value rt dv) (apiUrl env)) with (net rt (apiUrl env)).
  rewrite !(fetched_of_parsed _ env r data _ Hr Hok Hj).
  rewrite (proj1 (parsed_at_exact_index (with_Date_value rt dv) data i Hex Hi)).
  rewrite (proj1 (parsed_at_exact_index rt data i Hex Hi)).
  reflexivity.
Qed.

Lemma exact_match_needs_no_date_witness :
  let rt := runtime_with (FetchResolves (response_200 example_body)) in
  let env := env_holding CachedNull in
  net rt (apiUrl env) = FetchResolves (response_200 example_body)
  /\ ok (response_200 example_body) = true
  /\ json (response_200 example_body) = Ok example_body
  /\ exact_index example_body = Ok 0
  /\ 0 <> -1
  /\ fetchWeatherData (with_Date_value rt (fun _ => None)) env = fetchWeatherData rt env.
Proof.
  assert (H0 : 0 <> -1) by discriminate.
  split; [reflexivity|]. split; [reflexivity|]. split; [reflexivity|].
  split; [reflexivity|]. split; [exact H0|].
  exact (exact_match_needs_no_date
           (runtime_with (FetchResolves (response_200 example_body)))
           (env_holding CachedNull) (response_200 example_body) example_body 0
           (fun _ => None) eq_refl eq_refl eq_refl eq_refl H0).
Defined.

(** X9.  The fallback of [worker.ts] needs a valid date: when building the
    label from the reading's time throws (the time is not a date the
    runtime can read), the fetcher of [worker.ts] returns what the variant
    returns. *)
Theorem no_fallback_without_a_date rt env r data e :
  net rt (apiUrl env) = FetchResolves r ->
  ok r = true ->
  json r = Ok data ->
  targetTime rt (field (field data "current_weather") "time") = Throw e ->
  fetchWeatherData rt env = Part000.fetchWeatherData rt env.
Proof.
  intros Hr Hok Hj Ht.
  rewrite fetchWeatherData_run, Part000_fetchWeatherData_run. f_equal. f_equal.
  rewrite !(fetched_of_parsed rt env r data _ Hr Hok Hj).
  destruct (parsed_agree rt data) as [H|[Hinc Hex]]; [exact H|].
  destruct (exact_index_object data (-1) Hex) as [Hn Hht].
  rewrite (parsed_normal rt data Hn), (Part000_parsed_normal rt data Hn).
  cbv zeta. rewrite Hht. fold (exact_index data). rewrite Hex, Hinc. simpl.
  unfold fallback_index. cbv zeta. rewrite Ht. reflexivity.
Qed.

Lemma no_fallback_without_a_date_witness :
  let rt := runtime_with (FetchResolves (response_200 body_undated)) in
  let env := env_holding CachedNull in
  net rt (apiUrl env) = FetchResolves (response_200 body_undated)
  /\ ok (response_200 body_undated) = true
  /\ json (response_200 body_undated) = Ok body_undated
  /\ targetTime rt (field (field body_undated "current_weather") "time")
     = Throw (Exn "Invalid time value")
  /\ fetchWeatherData rt env = Part000.fetchWeatherData rt env.
Proof.
  split; [reflexivity|]. split; [reflexivity|]. split; [reflexivity|].
  split; [reflexivity|].
  exact (no_fallback_without_a_date
           (runtime_with (FetchResolves (response_200 body_undated)))
           (env_holding CachedNull) (response_200 body_undated) body_undated
           (Exn "Invalid time value") eq_refl eq_refl eq_refl eq_refl).
Defined.

(** X10.  Bounds.  When the exact search succeeds at an index at which the
    precipitation array or the cloudcover array has no entry, both fetchers
    return no record, so that the request handler, on a miss, answers 503
    and writes nothing. *)
Theorem short_series_gives_no_record rt request env r data i ps cs :
  net rt (apiUrl env) = FetchResolves r ->
  ok r = true ->
  json r = Ok data ->
  exact_index data = Ok (Z.of_nat i) ->
  field (field data "hourly") "precipitation" = JArr ps ->
  field (field data "hourly") "cloudcover" = JArr cs ->
  (List.length ps <= i)%nat \/ (List.length cs <= i)%nat ->
  snd (fetchWeatherData rt env) = Ok JNull
  /\ snd (Part000.fetchWeatherData rt env) = Ok JNull
  /\ (method request <> "OPTIONS" -> snd (getCachedWeatherData env) = Ok JNull ->
      fetch rt request env
      = ([EvKvGet CACHE_KEY; EvFetch (apiUrl env)], Ok unavailable_response)).
Proof.
  intros Hr Hok Hj Hex Hps Hcs Hshort.
  assert (Hi : Z.of_nat i <> -1) by lia.
  destruct (fetched_parsed rt env r data Hr Hok Hj) as [Hw Hs].
  destruct (parsed_at_exact_index rt data _ Hex Hi) as [Ew Es].
  assert (Hnull : (if incomplete data then JNull
                   else or_null (record_at rt data
                                   (field (field data "current_weather") "time")
                                   (Z.of_nat i))) = JNull).
  { destruct (incomplete data) eqn:Hinc; [reflexivity|].
    unfold incomplete in Hinc. apply orb_false_iff in Hinc. destruct Hinc as [Hinc _].
    apply orb_false_iff in Hinc. destruct Hinc as [Hinc _].
    apply orb_false_iff in Hinc. destruct Hinc as [Hcw _].
    apply negb_false_iff in Hcw.
    rewrite (record_at_arrays rt data _ i ps cs
               (proj1 (exact_index_object _ _ Hex)) Hcw Hps Hcs).
    destruct Hshort as [H|H]; rewrite (nth_beyond _ _ H); simpl;
      [reflexivity|rewrite orb_true_r; reflexivity]. }
  rewrite Ew, Hnull in Hw. rewrite Es, Hnull in Hs.
  split; [exact Hw|]. split; [exact Hs|].
  intros Hm Hc.
  rewrite (fetch_run rt request env (not_OPTIONS _ Hm) JNull JNull
             (cached_value_of _ _ Hc) (fetched_value_of _ _ _ Hw)).
  reflexivity.
Qed.

Lemma short_series_gives_no_record_witness :
  let rt := runtime_with (FetchResolves (response_200 body_short_series)) in
  let env := env_holding CachedNull in
  net rt (apiUrl env) = FetchResolves (response_200 body_short_series)
  /\ ok (response_200 body_short_series) = true
  /\ json (response_200 body_short_series) = Ok body_short_series
  /\ exact_index body_short_series = Ok (Z.of_nat 1)
  /\ field (field body_short_series "hourly") "precipitation" = JArr [JNum 0.1]
  /\ field (field body_short_series "hourly") "cloudcover" = JArr [JNum 25; JNum 35]
  /\ (List.length [JNum 0.1] <= 1)%nat
  /\ method GET <> "OPTIONS"
  /\ snd (getCachedWeatherData env) = Ok JNull
  /\ snd (fetchWeatherData rt env) = Ok JNull
  /\ snd (Part000.fetchWeatherData rt env) = Ok JNull
  /\ fetch rt GET env
     = ([EvKvGet CACHE_KEY; EvFetch (apiUrl env)], Ok unavailable_response).
Proof.
  assert (Hm : method GET <> "OPTIONS") by (simpl; discriminate).
  assert (Hl : (List.length [JNum 0.1] <= 1)%nat) by (simpl; lia).
  pose proof (short_series_gives_no_record
                (runtime_with (FetchResolves (response_200 body_short_series))) GET
                (env_holding CachedNull) (response_200 body_short_series)
                body_short_series 1 [JNum 0.1] [JNum 25; JNum 35]
                eq_refl eq_refl eq_refl eq_refl eq_refl eq_refl (or_introl Hl))
    as [Hw [Hs Hf]].
  split; [reflexivity|]. split; [reflexivity|]. split; [reflexivity|].
  split; [reflexivity|]. split; [reflexivity|]. split; [reflexivity|].
  split; [exact Hl|]. split; [exact Hm|]. split; [reflexivity|].
  split; [exact Hw|]. split; [exact Hs|].
  exact (Hf Hm eq_refl).
Defined.



(** X12.  When the body's hourly time is not an array (the body is not an
    object, has no hourly member or no time under it, or the time is a
    value of another kind, on which the search throws), both fetchers
    return no record. *)
Theorem no_record_without_time_array rt env r data :
  net rt (apiUrl env) = FetchResolves r ->
  ok r = true ->
  json r = Ok data ->
  (forall elems, field (field data "hourly") "time" <> JArr elems) ->
  snd (fetchWeatherData rt env) = Ok JNull
  /\ snd (Part000.fetchWeatherData rt env) = Ok JNull.
Proof.
  intros Hr Hok Hj Hnot.
  destruct (fetched_parsed rt env r data Hr Hok Hj) as [Hw Hs].
  assert (Hboth : or_null (fetchWeatherData_parsed rt data) = JNull
                  /\ or_null (Part000.fetchWeatherData_parsed rt data) = JNull).
  { destruct (nullish data) eqn:Hn.
    - destruct (parsed_nullish rt data Hn) as [e ->].
      destruct (Part000_parsed_nullish rt data Hn) as [e' ->]. split; reflexivity.
    - rewrite (parsed_normal rt data Hn), (Part000_parsed_normal rt data Hn). cbv zeta.
      split.
      + destruct (incomplete data); [reflexivity|].
        unfold exact_index.
        destruct (findIndex_not_array _
                    (fun t => strict_eq t (field (field data "current_weather") "time"))
                    Hnot) as [e ->].
        reflexivity.
      + destruct (truthy (field (field data "hourly") "time")).
        * destruct (findIndex_not_array _
                      (fun t => strict_eq t (field (field data "current_weather") "time"))
                      Hnot) as [e ->].
          reflexivity.
        * reflexivity. }
  destruct Hboth as [Ew Es]. rewrite Ew in Hw. rewrite Es in Hs. split; assumption.
Qed.

Lemma no_record_without_time_array_witness :
  let rt := runtime_with (FetchResolves (response_200 body_time_not_array)) in
  let env := env_holding CachedNull in
  net rt (apiUrl env) = FetchResolves (response_200 body_time_not_array)
  /\ ok (response_200 body_time_not_array) = true
  /\ json (response_200 body_time_not_array) = Ok body_time_not_array
  /\ (forall elems, field (field body_time_not_array "hourly") "time" <> JArr elems)
  /\ snd (fetchWeatherData rt env) = Ok JNull
  /\ snd (Part000.fetchWeatherData rt env) = Ok JNull.
Proof.
  assert (Hnot : forall elems,
             field (field body_time_not_array "hourly") "time" <> JArr elems)
    by (intros elems; simpl; discriminate).
  split; [reflexivity|]. split; [reflexivity|]. split; [reflexivity|].
  split; [exact Hnot|].
  exact (no_record_without_time_array
           (runtime_with (FetchResolves (response_200 body_time_not_array)))
           (env_holding CachedNull) (response_200 body_time_not_array)
           body_time_not_array eq_refl eq_refl eq_refl Hnot).
Defined.

(** ** The two versions of the handlers *)

(** X13.  The request handler and the timer handler of the variant behave
    as those of [worker.ts] on every input, except possibly when the
    upstream answers with success a body that has the reading and the three
    arrays but no hourly label strictly equal to the reading's time; for
    the request handler the exception further needs a method other than
    OPTIONS and a cache read that returns nothing. *)
Theorem handler_versions_agree rt request env :
  (Part000.fetch rt request env = fetch rt request env
   /\ Part000.scheduled rt env = scheduled rt env)
  \/ (exists r data,
        net rt (apiUrl env) = FetchResolves r /\ ok r = true /\ json r = Ok data
        /\ incomplete data = false /\ exact_index data = Ok (-1)
        /\ (Part000.fetch rt request env = fetch rt request env
            \/ (method request <> "OPTIONS"
                /\ exists v, snd (getCachedWeatherData env) = Ok v /\ truthy v = false))).
Proof.
  assert (Hcache : forall (P : Prop),
             (String.eqb (method request) "OPTIONS" = false ->
              truthy (cache_value (kv_get (WEATHER_CACHE env) CACHE_KEY)) = false -> P) ->
             Part000.fetch rt request env = fetch rt request env \/ P).
  { intros P HP.
    destruct (String.eqb (method request) "OPTIONS") eqn:Hm.
    - left. unfold Part000.fetch, fetch. rewrite Hm. reflexivity.
    - rewrite (fetch_run rt request env Hm _ _
                 (getCachedWeatherData_run env) (fetchWeatherData_run rt env)).
      rewrite (Part000_fetch_run rt request env Hm _ _
                 (getCachedWeatherData_run env) (Part000_fetchWeatherData_run rt env)).
      destruct (truthy (cache_value _)) eqn:Hc; [left; reflexivity|].
      right. apply HP; reflexivity. }
  destruct (fetchers_agree_or rt env) as [H|[r [data [Hr [Hok [Hj [Hinc Hex]]]]]]].
  - left.
    assert (E : response_value (fetchWeatherData_parsed rt) (net rt (apiUrl env))
                = response_value (Part000.fetchWeatherData_parsed rt) (net rt (apiUrl env))).
    { rewrite fetchWeatherData_run, Part000_fetchWeatherData_run in H.
      inversion H. reflexivity. }
    split.
    + destruct (String.eqb (method request) "OPTIONS") eqn:Hm.
      * unfold Part000.fetch, fetch. rewrite Hm. reflexivity.
      * rewrite (fetch_run rt request env Hm _ _
                   (getCachedWeatherData_run env) (fetchWeatherData_run rt env)).
        rewrite (Part000_fetch_run rt request env Hm _ _
                   (getCachedWeatherData_run env) (Part000_fetchWeatherData_run rt env)).
        rewrite E. reflexivity.
    + rewrite (scheduled_run rt env _ (fetchWeatherData_run rt env)).
      rewrite (Part000_scheduled_run rt env _ (Part000_fetchWeatherData_run rt env)).
      rewrite E. reflexivity.
  - right. exists r, data. do 5 (split; [assumption|]).
    apply Hcache. intros Hm Hc. split; [apply String.eqb_neq; exact Hm|].
    eexists. split; [rewrite getCachedWeatherData_run; reflexivity|exact Hc].
Qed.

(** ** The fallback *)

(** X14.  A record that the fetcher of [worker.ts] returns when no hourly
    label is strictly equal to the reading's time, hence through its
    fallback, carries the reading's time as timestamp: a timestamp that
    equals none of the hourly labels, the label of the entry its values
    were read from included. *)
Theorem fallback_timestamp_matches_no_label rt env r data elems v :
  net rt (apiUrl env) = FetchResolves r ->
  ok r = true ->
  json r = Ok data ->
  exact_index data = Ok (-1) ->
  field (field data "hourly") "time" = JArr elems ->
  snd (fetchWeatherData rt env) = Ok v ->
  v <> JNull ->
  field v "timestamp" = field (field data "current_weather") "time"
  /\ Forall (fun label => strict_eq label (field v "timestamp") = false) elems.
Proof.
  intros Hr Hok Hj Hex Hel Hv Hnn.
  destruct (fetched_parsed rt env r data Hr Hok Hj) as [Hw _].
  rewrite Hw in Hv. inversion Hv as [E]. clear Hv.
  destruct (fetchWeatherData_parsed rt data) as [w|e] eqn:Hp;
    simpl in E; [subst w|exfalso; apply Hnn; symmetry; exact E].
  destruct (parsed_result rt data v Hp) as [H0|[p [c [Hrec _]]]];
    [exfalso; exact (Hnn H0)|].
  assert (Hts : field v "timestamp" = field (field data "current_weather") "time")
    by (rewrite Hrec; reflexivity).
  split; [exact Hts|]. cbn [or_null]. rewrite Hts.
  unfold exact_index in Hex. rewrite Hel in Hex. simpl in Hex. inversion Hex as [Hfind].
  apply (find_from_none _ elems 0); [lia|exact Hfind].
Qed.

Lemma fallback_timestamp_matches_no_label_witness :
  let rt := runtime_with (FetchResolves (response_200 body_half_past)) in
  let env := env_holding CachedNull in
  let elems := [JStr "2025-06-26T12:00"; JStr "2025-06-26T13:00"] in
  let v := CachedWeatherData (JNum 23.1) (JNum 0.2) (JNum 35) (JStr "2025-06-26T13:30")
                             "2025-06-26T12:00:05.000Z" in
  net rt (apiUrl env) = FetchResolves (response_200 body_half_past)
  /\ ok (response_200 body_half_past) = true
  /\ json (response_200 body_half_past) = Ok body_half_past
  /\ exact_index body_half_past = Ok (-1)
  /\ field (field body_half_past "hourly") "time" = JArr elems
  /\ snd (fetchWeatherData rt env) = Ok v
  /\ v <> JNull
  /\ field v "timestamp" = field (field body_half_past "current_weather") "time"
  /\ Forall (fun label => strict_eq label (field v "timestamp") = false) elems.
Proof.
  assert (Hnn : CachedWeatherData (JNum 23.1) (JNum 0.2) (JNum 35) (JStr "2025-06-26T13:30")
                                  "2025-06-26T12:00:05.000Z" <> JNull) by discriminate.
  do 6 (split; [reflexivity|]). split; [exact Hnn|].
  exact (fallback_timestamp_matches_no_label
           (runtime_with (FetchResolves (response_200 body_half_past)))
           (env_holding CachedNull) (response_200 body_half_past) body_half_past
           [JStr "2025-06-26T12:00"; JStr "2025-06-26T13:00"]
           (CachedWeatherData (JNum 23.1) (JNum 0.2) (JNum 35) (JStr "2025-06-26T13:30")
                              "2025-06-26T12:00:05.000Z")
           eq_refl eq_refl eq_refl eq_refl eq_refl eq_refl Hnn).
Defined.

(** ** Failures of the upstream call *)

(** X15.  When the upstream call rejects, or the body of a successful
    response cannot be read as JSON, both fetchers swallow the error and
    return no record; the request handler then, on a miss, answers 503 with
    the fixed message, which carries nothing of the error, and writes
    nothing. *)
Theorem transport_and_parse_errors_are_swallowed rt request env :
  (exists e, net rt (apiUrl env) = FetchRejects e)
  \/ (exists r e, net rt (apiUrl env) = FetchResolves r /\ ok r = true /\ json r = Throw e) ->
  fetchWeatherData rt env = ([EvFetch (apiUrl env)], Ok JNull)
  /\ Part000.fetchWeatherData rt env = ([EvFetch (apiUrl env)], Ok JNull)
  /\ (method request <> "OPTIONS" -> snd (getCachedWeatherData env) = Ok JNull ->
      fetch rt request env
      = ([EvKvGet CACHE_KEY; EvFetch (apiUrl env)],
         Ok {| status := 503;
               body := Some (Literal "Unable to fetch weather data");
               headers := corsHeaders |})).
Proof.
  intros H.
  assert (Hw : fetchWeatherData rt env = ([EvFetch (apiUrl env)], Ok JNull)).
  { rewrite fetchWeatherData_run. unfold response_value.
    destruct H as [[e ->]|[r [e [-> [-> ->]]]]]; reflexivity. }
  assert (Hs : Part000.fetchWeatherData rt env = ([EvFetch (apiUrl env)], Ok JNull)).
  { rewrite Part000_fetchWeatherData_run. unfold response_value.
    destruct H as [[e ->]|[r [e [-> [-> ->]]]]]; reflexivity. }
  split; [exact Hw|]. split; [exact Hs|].
  intros Hm Hc.
  rewrite (fetch_run rt request env (not_OPTIONS _ Hm) JNull JNull
             (cached_value_of _ _ Hc) Hw).
  reflexivity.
Qed.

Lemma transport_and_parse_errors_are_swallowed_witness :
  let rt := runtime_with (FetchRejects (Exn "network connection lost")) in
  let env := env_holding CachedNull in
  net rt (apiUrl env) = FetchRejects (Exn "network connection lost")
  /\ method GET <> "OPTIONS"
  /\ snd (getCachedWeatherData env) = Ok JNull
  /\ fetchWeatherData rt env = ([EvFetch (apiUrl env)], Ok JNull)
  /\ Part000.fetchWeatherData rt env = ([EvFetch (apiUrl env)], Ok JNull)
  /\ fetch rt GET env
     = ([EvKvGet CACHE_KEY; EvFetch (apiUrl env)],
        Ok {| status := 503;
              body := Some (Literal "Unable to fetch weather data");
              headers := corsHeaders |}).
Proof.
  assert (Hm : method GET <> "OPTIONS") by (simpl; discriminate).
  pose proof (transport_and_parse_errors_are_swallowed
                (runtime_with (FetchRejects (Exn "network connection lost"))) GET
                (env_holding CachedNull)
                (or_introl (ex_intro _ (Exn "network connection lost") eq_refl)))
    as [Hw [Hs Hf]].
  split; [reflexivity|]. split; [exact Hm|]. split; [reflexivity|].
  split; [exact Hw|]. split; [exact Hs|].
  exact (Hf Hm eq_refl).
Defined.
